(** * Youtube.py: a Tkinter mock-up of a video page

    The program builds five panels (header, sidebar, video grid, video
    player, comments) on one Tk root window.  Its only behaviour is widget
    creation, three decorated actions ([search], [update_grid],
    [submit_comment]) and printing to standard output.

    The development embeds the program shallowly: every method of
    [src/Rohan/Youtube.py] is a function in a state-and-exception monad over
    a [world] that holds the Python objects, the Tk widget tree, the output
    written by [print] and the random source.  Python and Tk primitives that
    the program calls (but does not define) are modelled in the first part.

    Modelling choices:
    - a [string] stands for a Python [str] whose code points are below 256;
    - an object is a class name and a [__dict__]; reading an attribute that
      was never set raises [AttributeError];
    - a widget is named by a reference; creating a widget under a master that
      is not alive, or reading a widget that is not alive, raises [TclError];
    - [destroy] removes a widget with everything below it;
    - one [Printed] event is one call of [print];
    - [Called] events are ghost state: they record method entries so that
      "which method ran, how often, in which order" can be stated;
    - [random.randint] is modelled by its contract: the [k]-th call returns
      an integer of the interval, fixed by the [k]-th element of an arbitrary
      random source.  Every sequence of results the real function can give is
      covered by some source; how CPython obtains a result (it draws raw bits
      again until they fit) is not modelled, and nothing is stated about raw
      generator output. *)

From Stdlib Require Import ZArith Ascii DecimalString.
From stdpp Require Import gmap strings list.

(** ** Python builtins used by the program *)

Module Python.

(** [str.isspace] on the code points below 256 (a Rocq [ascii] stands for
    one such code point): TAB..CR, FS..US, space, NEL and NBSP. *)
Definition isspace (c : ascii) : bool :=
  let n := nat_of_ascii c in
  ((9 <=? n) && (n <=? 13)) || ((28 <=? n) && (n <=? 32))
  || (n =? 133) || (n =? 160).

Fixpoint lstrip (s : string) : string :=
  match s with
  | EmptyString => EmptyString
  | String c r => if isspace c then lstrip r else s
  end.

Fixpoint rstrip (s : string) : string :=
  match s with
  | EmptyString => EmptyString
  | String c r =>
      match rstrip r with
      | EmptyString => if isspace c then EmptyString else String c EmptyString
      | r' => String c r'
      end
  end.

(** [s.strip()]: whitespace removed at both ends. *)
Definition strip (s : string) : string := lstrip (rstrip s).

(** [str(n)] / [f"{n}"] for an [int]. *)
Definition str (n : Z) : string := NilZero.string_of_int (Z.to_int n).

(** [range(n)] as the list it iterates over. *)
Definition range (n : nat) : list Z := Z.of_nat <$> seq 0 n.

(** Truth value of a [str]: only the empty string is false. *)
Definition truthy (s : string) : bool := bool_decide (s ≠ "").

End Python.

(** ** The world: objects, widget tree, output, random source *)

(** Python objects and Tk widgets are named by references handed out by one
    counter. *)
Abbreviation ref := nat (only parsing).

Inductive exn :=
| AttributeError (name : string)
| TclError (msg : string).

Inductive outcome (A : Type) :=
| Ok (a : A)
| Raise (e : exn).
Arguments Ok {A} a.
Arguments Raise {A} e.

(** A Python instance: its class name and its [__dict__]. *)
Record object := Object {
  o_class : string;
  o_dict : gmap string ref }.

Inductive wclass := Tk | Frame | Label | Button | Entry | Text.

Definition options := list (string * string).

(** How a widget is managed by its master: not at all, by [pack], or by
    [grid] at a row and a column. *)
Inductive geometry :=
| Unmanaged
| Pack (o : options)
| Grid (row column : Z) (o : options).

Record widget := Widget {
  w_class : wclass;
  w_master : option ref;            (* [None] for the root window *)
  w_options : options;              (* configuration, as Tcl strings *)
  w_command : option (ref * string);(* bound method [self.meth] of a button *)
  w_geometry : geometry;
  w_propagate : bool;
  w_content : string }.             (* text held by an Entry or a Text *)

(** What the run leaves behind, in order: the lines written by [print], and
    (as a ghost record, not in the source) each method entry. *)
Inductive event :=
| Printed (line : string)
| Called (qualname : string) (self : ref) (args : list string).

Record world := World {
  heap : gmap ref object;
  widgets : gmap ref widget;
  next_ref : ref;
  events : list event;
  entropy : nat → Z;                (* random source: one element per [randint] call *)
  drawn : nat }.                    (* how many calls of [randint] were made *)

#[global] Instance exn_eq_dec : EqDecision exn.
Proof. solve_decision. Defined.
#[global] Instance wclass_eq_dec : EqDecision wclass.
Proof. solve_decision. Defined.
#[global] Instance geometry_eq_dec : EqDecision geometry.
Proof. solve_decision. Defined.
#[global] Instance widget_eq_dec : EqDecision widget.
Proof. solve_decision. Defined.
#[global] Instance event_eq_dec : EqDecision event.
Proof. solve_decision. Defined.

Definition set_heap (f : gmap ref object → gmap ref object) (w : world) : world :=
  World (f (heap w)) (widgets w) (next_ref w) (events w) (entropy w) (drawn w).
Definition set_widgets (f : gmap ref widget → gmap ref widget) (w : world) : world :=
  World (heap w) (f (widgets w)) (next_ref w) (events w) (entropy w) (drawn w).
Definition emit (e : event) (w : world) : world :=
  World (heap w) (widgets w) (next_ref w) (events w ++ [e]) (entropy w) (drawn w).
Definition bump (w : world) : world :=
  World (heap w) (widgets w) (S (next_ref w)) (events w) (entropy w) (drawn w).
Definition draw (w : world) : world :=
  World (heap w) (widgets w) (next_ref w) (events w) (entropy w) (S (drawn w)).

(** The lines on standard output, oldest first. *)
Definition stdout (w : world) : list string :=
  omap (λ e, match e with Printed l => Some l | Called _ _ _ => None end) (events w).

(** The method entries, oldest first. *)
Definition calls (w : world) : list (string * ref * list string) :=
  omap (λ e, match e with Called q s a => Some (q, s, a) | Printed _ => None end) (events w).

(** ** The monad: state passing with exceptions

    An exception keeps the state reached so far, as in Python. *)
Definition IO (A : Type) : Type := world → outcome A * world.

Definition ret {A} (a : A) : IO A := λ w, (Ok a, w).
Definition raise {A} (e : exn) : IO A := λ w, (Raise e, w).
Definition bind {A B} (m : IO A) (k : A → IO B) : IO B :=
  λ w, match m w with
       | (Ok a, w') => k a w'
       | (Raise e, w') => (Raise e, w')
       end.

Declare Scope io_scope.
Delimit Scope io_scope with io.
Bind Scope io_scope with IO.
Notation "x <- m ;; k" := (bind m (λ x, k))
  (at level 100, m at next level, right associativity) : io_scope.
Notation "m ;; k" := (bind m (λ _, k))
  (at level 100, right associativity) : io_scope.
Local Open Scope io_scope.

(** [for x in l: body]. *)
Fixpoint for_ {A} (l : list A) (body : A → IO unit) : IO unit :=
  match l with
  | [] => ret tt
  | x :: r => body x ;; for_ r body
  end.

(** ** Primitives *)

Definition print (line : string) : IO unit := λ w, (Ok tt, emit (Printed line) w).

(** Ghost: record that a method body was entered. *)
Definition called (qualname : string) (self : ref) (args : list string) : IO unit :=
  λ w, (Ok tt, emit (Called qualname self args) w).

Definition getattr (self : ref) (name : string) : IO ref :=
  λ w, match heap w !! self ≫= (λ o, o_dict o !! name) with
       | Some v => (Ok v, w)
       | None => (Raise (AttributeError name), w)
       end.

Definition setattr (self : ref) (name : string) (v : ref) : IO unit :=
  λ w, match heap w !! self with
       | Some o => (Ok tt, set_heap <[self := Object (o_class o) (<[name := v]> (o_dict o))]> w)
       | None => (Raise (AttributeError name), w)
       end.

(** A fresh instance of class [cls] with an empty [__dict__]. *)
Definition new_object (cls : string) : IO ref :=
  λ w, (Ok (next_ref w), bump (set_heap <[next_ref w := Object cls ∅]> w)).

(** [random.randint(a, b)], by its contract: some integer of [[a, b]].  The
    [k]-th call takes the [k]-th element of the random source and brings it
    into the interval, so that every result in [[a, b]] can come out and
    nothing else; one call advances the call counter by one.  The number of
    raw bits the real generator draws for one result is not modelled. *)
Definition randint (a b : Z) : IO Z :=
  λ w, (Ok (a + entropy w (drawn w) `mod` (b - a + 1))%Z, draw w).

Module tk.

(** Tk constants, as the strings Tkinter passes on. *)
Definition X := "x".
Definition Y := "y".
Definition BOTH := "both".
Definition LEFT := "left".
Definition W := "w".
Definition RAISED := "raised".
Definition SUNKEN := "sunken".

Definition alive (r : ref) (w : world) : bool := bool_decide (is_Some (widgets w !! r)).

Definition no_such_window : exn := TclError "bad window path name".

(** Widget constructor: fails when the master is not a live widget. *)
Definition create (c : wclass) (master : ref) (o : options)
    (command : option (ref * string)) : IO ref :=
  λ w, if alive master w
       then (Ok (next_ref w),
             bump (set_widgets
               <[next_ref w := Widget c (Some master) o command Unmanaged true ""]> w))
       else (Raise no_such_window, w).

Definition Frame (master : ref) (o : options) : IO ref := create Frame master o None.
Definition Label (master : ref) (o : options) : IO ref := create Label master o None.
Definition Entry (master : ref) (o : options) : IO ref := create Entry master o None.
Definition Text (master : ref) (o : options) : IO ref := create Text master o None.
Definition Button (master : ref) (o : options) (command : option (ref * string)) : IO ref :=
  create Button master o command.

(** Change one live widget in place. *)
Definition configure (f : widget → widget) (r : ref) : IO unit :=
  λ w, match widgets w !! r with
       | Some wd => (Ok tt, set_widgets <[r := f wd]> w)
       | None => (Raise no_such_window, w)
       end.

Definition with_geometry (g : geometry) (wd : widget) : widget :=
  Widget (w_class wd) (w_master wd) (w_options wd) (w_command wd) g
         (w_propagate wd) (w_content wd).
Definition with_propagate (b : bool) (wd : widget) : widget :=
  Widget (w_class wd) (w_master wd) (w_options wd) (w_command wd) (w_geometry wd)
         b (w_content wd).
Definition with_content (s : string) (wd : widget) : widget :=
  Widget (w_class wd) (w_master wd) (w_options wd) (w_command wd) (w_geometry wd)
         (w_propagate wd) s.
Definition with_options (o : options) (wd : widget) : widget :=
  Widget (w_class wd) (w_master wd) (w_options wd ++ o) (w_command wd) (w_geometry wd)
         (w_propagate wd) (w_content wd).

Definition pack (r : ref) (o : options) : IO unit := configure (with_geometry (Pack o)) r.
Definition grid (r : ref) (row column : Z) (o : options) : IO unit :=
  configure (with_geometry (Grid row column o)) r.
Definition pack_propagate (r : ref) (flag : bool) : IO unit :=
  configure (with_propagate flag) r.

(** The widgets of [m] whose master is [p], in creation order; [n] bounds
    the references handed out so far. *)
Definition children (p : ref) (m : gmap ref widget) (n : nat) : list ref :=
  filter (λ i, m !! i ≫= w_master = Some p) (seq 0 n).

Definition winfo_children (r : ref) : IO (list ref) :=
  λ w, if alive r w
       then (Ok (children r (widgets w) (next_ref w)), w)
       else (Raise no_such_window, w).

(** [under fuel m c i]: [i] is [c] or has [c] among its first [fuel]
    ancestors. *)
Fixpoint under (fuel : nat) (m : gmap ref widget) (c i : ref) : bool :=
  bool_decide (i = c) ||
  match fuel with
  | O => false
  | S fuel' =>
      match m !! i ≫= w_master with
      | Some p => under fuel' m c p
      | None => false
      end
  end.

Definition without (n : nat) (c : ref) (m : gmap ref widget) : gmap ref widget :=
  filter (λ iw, under n m c iw.1 = false) m.

(** [widget.destroy()]: the widget goes, with everything below it.
    Destroying a window that no longer exists is not an error in Tk. *)
Definition destroy (c : ref) : IO unit :=
  λ w, (Ok tt, set_widgets (without (next_ref w) c) w).

(** [entry.get()]. *)
Definition Entry_get (r : ref) : IO string :=
  λ w, match widgets w !! r with
       | Some wd => (Ok (w_content wd), w)
       | None => (Raise no_such_window, w)
       end.

(** [text.get("1.0", tk.END)]: the whole buffer, which in Tk always ends
    with one newline that is not part of what was typed. *)
Definition Text_get_all (r : ref) : IO string :=
  λ w, match widgets w !! r with
       | Some wd => (Ok (w_content wd +:+ String (ascii_of_nat 10) ""), w)
       | None => (Raise no_such_window, w)
       end.

(** [text.delete("1.0", tk.END)]: empties the buffer. *)
Definition Text_delete_all (r : ref) : IO unit := configure (with_content "") r.

(** [super().__init__()] of the application: the root window, which is
    also the Python object carrying the application's attributes. *)
Definition Tk (cls : string) : IO ref :=
  λ w, (Ok (next_ref w),
        bump (set_heap <[next_ref w := Object cls ∅]>
             (set_widgets <[next_ref w := Widget Tk None [] None Unmanaged true ""]> w))).

(** [root.title(s)], [root.geometry(s)]. *)
Definition wm (key value : string) (r : ref) : IO unit :=
  configure (with_options [(key, value)]) r.

End tk.

(** ** The program *)

(** A Python function object: its [__name__] and what a call does. *)
Record function (A B : Type) := Function {
  __name__ : string;
  call : A → IO B }.
Arguments Function {A B} _ _.
Arguments __name__ {A B} _.
Arguments call {A B} _ _.

(** The decorator.  [wraps(func)] gives the wrapper the name of [func]. *)
Definition log_action {A B} (func : function A B) : function A B :=
  {| __name__ := __name__ func;
     call := λ args,
       print ("Action logged: " +:+ __name__ func +:+ " called");;
       call func args |}.

Module UIComponent.

Definition __init__ (self master : ref) : IO unit :=
  called "UIComponent.__init__" self [];;
  setattr self "master" master.

Definition create_widget (self : ref) : IO unit :=
  called "UIComponent.create_widget" self [];;
  ret tt.

End UIComponent.

(** [cls(master)] for a panel class: all five inherit [UIComponent.__init__]. *)
Definition instantiate (cls : string) (master : ref) : IO ref :=
  self <- new_object cls;;
  UIComponent.__init__ self master;;
  ret self.

Module Header.

Definition create_widget (self : ref) : IO unit :=
  called "Header.create_widget" self [];;
  master <- getattr self "master";;
  header <- tk.Frame master [("bg", "red"); ("height", "50")];;
  tk.pack header [("fill", tk.X)];;
  logo <- tk.Label header
    [("text", "YouTube"); ("fg", "white"); ("bg", "red"); ("font", "Arial 16 bold")];;
  tk.pack logo [("side", tk.LEFT); ("padx", "10")];;
  search_frame <- tk.Frame header [("bg", "red")];;
  tk.pack search_frame
    [("side", tk.LEFT); ("expand", "1"); ("fill", tk.X); ("padx", "20")];;
  entry <- tk.Entry search_frame [("width", "40")];;
  setattr self "search_entry" entry;;
  search_entry <- getattr self "search_entry";;
  tk.pack search_entry [("side", tk.LEFT); ("ipady", "5")];;
  search_button <- tk.Button search_frame [("text", "Search")] (Some (self, "search"));;
  tk.pack search_button [("side", tk.LEFT); ("padx", "5")].

Definition search_body (self : ref) : IO unit :=
  called "Header.search" self [];;
  search_entry <- getattr self "search_entry";;
  query <- tk.Entry_get search_entry;;
  print ("Searching for: " +:+ query).

Definition search : function ref unit := log_action (Function "search" search_body).

End Header.

Module Sidebar.

Definition create_widget (self : ref) : IO unit :=
  called "Sidebar.create_widget" self [];;
  master <- getattr self "master";;
  sidebar <- tk.Frame master [("bg", "gray"); ("width", "150")];;
  tk.pack sidebar [("side", tk.LEFT); ("fill", tk.Y)];;
  let buttons := ["Home"; "Trending"; "Subscriptions"; "Library"] in
  for_ buttons (λ button,
    b <- tk.Button sidebar [("text", button); ("width", "15")] None;;
    tk.pack b [("pady", "5")]).

End Sidebar.

Module SearchableComponent.

Definition search_videos (self : ref) (query : string) : IO unit :=
  called "SearchableComponent.search_videos" self [query];;
  print ("Searching videos for query: " +:+ query).

End SearchableComponent.

Module VideoGrid.

Definition update_grid_body (self : ref) : IO unit :=
  called "VideoGrid.update_grid" self [];;
  grid <- getattr self "grid";;
  old <- tk.winfo_children grid;;
  for_ old (λ widget, tk.destroy widget);;
  for_ (Python.range 3) (λ i,
    for_ (Python.range 3) (λ j,
      grid <- getattr self "grid";;
      frame <- tk.Frame grid
        [("width", "200"); ("height", "150"); ("bg", "lightgray"); ("bd", "1");
         ("relief", tk.RAISED)];;
      tk.grid frame i j [("padx", "10"); ("pady", "10")];;
      tk.pack_propagate frame false;;
      thumbnail <- tk.Label frame [("bg", "gray"); ("width", "180"); ("height", "100")];;
      tk.pack thumbnail [("pady", "5 0")];;
      title <- tk.Label frame
        [("text", "Video " +:+ Python.str (i * 3 + j + 1)); ("wraplength", "180")];;
      tk.pack title [("pady", "5 0")];;
      n <- randint 100 1000000;;
      views <- tk.Label frame [("text", Python.str n +:+ " views"); ("fg", "gray")];;
      tk.pack views [])).

Definition update_grid : function ref unit :=
  log_action (Function "update_grid" update_grid_body).

Definition create_widget (self : ref) : IO unit :=
  called "VideoGrid.create_widget" self [];;
  master <- getattr self "master";;
  frame <- tk.Frame master [];;
  setattr self "grid" frame;;
  grid <- getattr self "grid";;
  tk.pack grid [("expand", "1"); ("fill", tk.BOTH)];;
  call update_grid self.

(** Inherited from [SearchableComponent]. *)
Definition search_videos := SearchableComponent.search_videos.

End VideoGrid.

Module VideoPlayer.

Definition create_widget (self : ref) : IO unit :=
  called "VideoPlayer.create_widget" self [];;
  master <- getattr self "master";;
  player <- tk.Frame master [("bg", "black"); ("height", "400")];;
  tk.pack player [("fill", tk.X); ("pady", "10")];;
  video <- tk.Label player
    [("bg", "gray"); ("text", "Video Player"); ("fg", "white"); ("font", "Arial 24")];;
  tk.pack video [("expand", "1"); ("fill", tk.BOTH)];;
  controls <- tk.Frame player [("bg", "lightgray"); ("height", "30")];;
  tk.pack controls [("fill", tk.X)];;
  play_button <- tk.Button controls [("text", "Play")] None;;
  tk.pack play_button [("side", tk.LEFT); ("padx", "5")];;
  pause_button <- tk.Button controls [("text", "Pause")] None;;
  tk.pack pause_button [("side", tk.LEFT); ("padx", "5")].

End VideoPlayer.

Module Comments.

Definition add_comment (self : ref) (user text : string) : IO unit :=
  called "Comments.add_comment" self [user; text];;
  comments_list <- getattr self "comments_list";;
  comment_frame <- tk.Frame comments_list
    [("bg", "lightgray"); ("bd", "1"); ("relief", tk.SUNKEN)];;
  tk.pack comment_frame [("fill", tk.X); ("pady", "5")];;
  author <- tk.Label comment_frame
    [("text", user); ("font", "Arial 10 bold"); ("bg", "lightgray")];;
  tk.pack author [("anchor", tk.W); ("padx", "5"); ("pady", "5 0")];;
  body <- tk.Label comment_frame
    [("text", text); ("wraplength", "400"); ("justify", tk.LEFT); ("bg", "lightgray")];;
  tk.pack body [("anchor", tk.W); ("padx", "5"); ("pady", "0 5")].

Definition submit_comment_body (self : ref) : IO unit :=
  called "Comments.submit_comment" self [];;
  comment_entry <- getattr self "comment_entry";;
  raw <- tk.Text_get_all comment_entry;;
  let comment := Python.strip raw in
  if Python.truthy comment then
    add_comment self "You" comment;;
    comment_entry <- getattr self "comment_entry";;
    tk.Text_delete_all comment_entry
  else ret tt.

Definition submit_comment : function ref unit :=
  log_action (Function "submit_comment" submit_comment_body).

Definition create_widget (self : ref) : IO unit :=
  called "Comments.create_widget" self [];;
  master <- getattr self "master";;
  comments <- tk.Frame master [];;
  tk.pack comments [("fill", tk.BOTH); ("expand", "1"); ("pady", "10")];;
  heading <- tk.Label comments [("text", "Comments"); ("font", "Arial 16 bold")];;
  tk.pack heading [("anchor", tk.W)];;
  text <- tk.Text comments [("height", "3")];;
  setattr self "comment_entry" text;;
  comment_entry <- getattr self "comment_entry";;
  tk.pack comment_entry [("fill", tk.X); ("pady", "5")];;
  submit_button <- tk.Button comments [("text", "Submit Comment")]
    (Some (self, "submit_comment"));;
  tk.pack submit_button [("anchor", tk.W)];;
  frame <- tk.Frame comments [];;
  setattr self "comments_list" frame;;
  comments_list <- getattr self "comments_list";;
  tk.pack comments_list [("fill", tk.BOTH); ("expand", "1"); ("pady", "10")];;
  add_comment self "User1" "Great video!";;
  add_comment self "User2" "Very informative, thanks for sharing!".

End Comments.

Module YouTubeApp.

Definition create_ui (self : ref) : IO unit :=
  called "YouTubeApp.create_ui" self [];;
  header <- getattr self "header";;
  Header.create_widget header;;
  sidebar <- getattr self "sidebar";;
  Sidebar.create_widget sidebar;;
  video_grid <- getattr self "video_grid";;
  VideoGrid.create_widget video_grid;;
  video_player <- getattr self "video_player";;
  VideoPlayer.create_widget video_player;;
  comments <- getattr self "comments";;
  Comments.create_widget comments.

(** [YouTubeApp()]: builds the root window and runs [__init__] on it. *)
Definition __init__ : IO ref :=
  self <- tk.Tk "YouTubeApp";;
  called "YouTubeApp.__init__" self [];;
  tk.wm "title" "YouTube-like Interface with OOP" self;;
  tk.wm "geometry" "800x600" self;;
  header <- instantiate "Header" self;;
  setattr self "header" header;;
  sidebar <- instantiate "Sidebar" self;;
  setattr self "sidebar" sidebar;;
  video_grid <- instantiate "VideoGrid" self;;
  setattr self "video_grid" video_grid;;
  video_player <- instantiate "VideoPlayer" self;;
  setattr self "video_player" video_player;;
  comments <- instantiate "Comments" self;;
  setattr self "comments" comments;;
  create_ui self;;
  ret self.

End YouTubeApp.

(** ** What the user can do while [mainloop] runs *)

(** A bound method stored as a button's [command]. *)
Definition invoke (command : ref * string) : IO unit :=
  let '(self, method) := command in
  if decide (method = "search") then call Header.search self
  else if decide (method = "submit_comment") then call Comments.submit_comment self
  else raise (AttributeError method).

(** A click: runs the button's command, if it has one. *)
Definition press (button : ref) : IO unit :=
  λ w, match widgets w !! button ≫= w_command with
       | Some command => invoke command w
       | None => (Ok tt, w)
       end.

(** The user replaces the text of an Entry or Text. *)
Definition type_text (r : ref) (s : string) : IO unit := tk.configure (tk.with_content s) r.

(** The state in which the program starts, given the random source. *)
Definition boot (rnd : nat → Z) : world := World ∅ ∅ 0 [] rnd 0.

(** ** Reading the widget tree

    The program keeps no list of comments or tiles of its own: a comment is
    a frame under [comments_list] holding an author label and a text label,
    a tile is a frame under [grid] holding a thumbnail, a title label and a
    view-count label.  The functions below read them back from the tree
    [m] (with reference bound [n]). *)

Fixpoint lookup_option (key : string) (o : options) : option string :=
  match o with
  | [] => None
  | (k, v) :: r => if decide (k = key) then Some v else lookup_option key r
  end.

Definition text_of (m : gmap ref widget) (r : ref) : option string :=
  m !! r ≫= λ wd, lookup_option "text" (w_options wd).

Definition attr (self : ref) (name : string) (h : gmap ref object) : option ref :=
  h !! self ≫= λ o, o_dict o !! name.

Record CommentEntry := { author : string; text : string }.

Definition comment_of (m : gmap ref widget) (n : nat) (f : ref) : option CommentEntry :=
  match tk.children f m n with
  | [a; t] => a' ← text_of m a; t' ← text_of m t; Some {| author := a'; text := t' |}
  | _ => None
  end.

(** The comments shown under the container [cl], top to bottom. *)
Definition comment_list (m : gmap ref widget) (n : nat) (cl : ref) : list (option CommentEntry) :=
  comment_of m n <$> tk.children cl m n.

Record VideoTile := { row : Z; column : Z; title : string; views : string }.

Definition tile_of (m : gmap ref widget) (n : nat) (f : ref) : option VideoTile :=
  match m !! f ≫= (λ wd, Some (w_class wd, w_geometry wd)), tk.children f m n with
  | Some (Frame, Grid r c _), [_; t; v] =>
      t' ← text_of m t; v' ← text_of m v;
      Some {| row := r; column := c; title := t'; views := v' |}
  | _, _ => None
  end.

(** The tiles attached to the grid container [g], in creation order. *)
Definition tiles (m : gmap ref widget) (n : nat) (g : ref) : list (option VideoTile) :=
  tile_of m n <$> tk.children g m n.

(** A well-formed tree: references are below the bound and every master is
    older than its children. *)
Definition wf_tree (m : gmap ref widget) (n : nat) : Prop :=
  map_Forall (λ i wd, i < n ∧ match w_master wd with Some p => p < i | None => True end) m.

#[global] Instance wf_tree_dec m n : Decision (wf_tree m n).
Proof.
  unfold wf_tree. apply map_Forall_dec. intros i wd.
  destruct (w_master wd); apply _.
Defined.

(** ** Summaries of what the methods build *)

(** The three widgets [add_comment] creates under the container [cl] when
    the next free reference is [n]. *)
Definition comment_block (cl n : ref) (user text : string) (m : gmap ref widget) :
    gmap ref widget :=
  <[S (S n) := Widget Label (Some n)
      [("text", text); ("wraplength", "400"); ("justify", tk.LEFT); ("bg", "lightgray")]
      None (Pack [("anchor", tk.W); ("padx", "5"); ("pady", "0 5")]) true ""]>
  (<[S n := Widget Label (Some n)
      [("text", user); ("font", "Arial 10 bold"); ("bg", "lightgray")]
      None (Pack [("anchor", tk.W); ("padx", "5"); ("pady", "5 0")]) true ""]>
  (<[n := Widget Frame (Some cl)
      [("bg", "lightgray"); ("bd", "1"); ("relief", tk.SUNKEN)]
      None (Pack [("fill", tk.X); ("pady", "5")]) true ""]> m)).

(** The comments shown under [cl] in world [w], and the text typed in [r]. *)
Definition comments_shown (cl : ref) (w : world) : list (option CommentEntry) :=
  comment_list (widgets w) (next_ref w) cl.

Definition input_of (r : ref) (w : world) : option string :=
  w_content <$> widgets w !! r.

(** [r] is managed by [pack], hence displayed. *)
Definition packed (m : gmap ref widget) (r : ref) : bool :=
  match w_geometry <$> m !! r with
  | Some (Pack _) => true
  | _ => false
  end.

(** A block is rendered when its frame and everything in it is packed. *)
Definition block_rendered (w : world) (f : ref) : bool :=
  packed (widgets w) f
  && forallb (packed (widgets w)) (tk.children f (widgets w) (next_ref w)).

(** The panel [self] has been rendered: its input box [ce] and its list
    container [cl] are live widgets of a well-formed tree. *)
Definition comments_ready (self ce cl : ref) (w : world) : Prop :=
  wf_tree (widgets w) (next_ref w)
  ∧ attr self "comment_entry" (heap w) = Some ce
  ∧ attr self "comments_list" (heap w) = Some cl
  ∧ is_Some (widgets w !! ce)
  ∧ is_Some (widgets w !! cl).

#[global] Instance comments_ready_dec self ce cl w : Decision (comments_ready self ce cl w).
Proof. unfold comments_ready. apply _. Defined.

Definition submit_log (self : ref) : list event :=
  [Printed "Action logged: submit_comment called"; Called "Comments.submit_comment" self []].

(** The five widgets [Comments.create_widget] builds under [root] before it
    adds the sample comments, when the next free reference is [n]: the
    panel frame, the heading, the input box, the submit button and the list
    container. *)
Definition comments_frame (self root n : ref) (m : gmap ref widget) : gmap ref widget :=
  <[4 + n := Widget Frame (Some n) [] None
      (Pack [("fill", tk.BOTH); ("expand", "1"); ("pady", "10")]) true ""]>
  (<[3 + n := Widget Button (Some n) [("text", "Submit Comment")]
      (Some (self, "submit_comment")) (Pack [("anchor", tk.W)]) true ""]>
  (<[2 + n := Widget Text (Some n) [("height", "3")] None
      (Pack [("fill", tk.X); ("pady", "5")]) true ""]>
  (<[1 + n := Widget Label (Some n) [("text", "Comments"); ("font", "Arial 16 bold")] None
      (Pack [("anchor", tk.W)]) true ""]>
  (<[n := Widget Frame (Some root) [] None
      (Pack [("fill", tk.BOTH); ("expand", "1"); ("pady", "10")]) true ""]> m)))).

(** The whole panel: the frame above and the two sample comments. *)
Definition comments_panel (self root n : ref) (m : gmap ref widget) : gmap ref widget :=
  comment_block (4 + n) (8 + n) "User2" "Very informative, thanks for sharing!"
    (comment_block (4 + n) (5 + n) "User1" "Great video!"
       (comments_frame self root n m)).

(** The panel object once [create_widget] has set its two attributes. *)
Definition comments_attrs (n : ref) (o : object) : object :=
  Object (o_class o) (<["comments_list" := 4 + n]> (<["comment_entry" := 2 + n]> (o_dict o))).

Definition seed1 : CommentEntry := {| author := "User1"; text := "Great video!" |}.
Definition seed2 : CommentEntry :=
  {| author := "User2"; text := "Very informative, thanks for sharing!" |}.

Definition render_log (self : ref) : list event :=
  [Called "Comments.create_widget" self [];
   Called "Comments.add_comment" self ["User1"; "Great video!"];
   Called "Comments.add_comment" self ["User2"; "Very informative, thanks for sharing!"]].

(** The arguments of every [add_comment] call on [self] so far. *)
Definition insertions (self : ref) (w : world) : list (list string) :=
  omap (λ c, match c with
             | (q, s, a) =>
                 if decide (q = "Comments.add_comment" ∧ s = self) then Some a else None
             end) (calls w).

(** What can happen to a rendered Comments panel. *)
Inductive action :=
| Typing (s : string)
| PressSubmit
| AddComment (user text : string).

Definition perform (self ce : ref) (a : action) : IO unit :=
  match a with
  | Typing s => type_text ce s
  | PressSubmit => call Comments.submit_comment self
  | AddComment user text => Comments.add_comment self user text
  end.

(** The Comments panel as the specification describes it: a list of
    entries in insertion order and the text waiting in the input box. *)
Record panel_state := { entries : list CommentEntry; pending : string }.

Definition spec_step (s : panel_state) (a : action) : panel_state :=
  match a with
  | Typing t => {| entries := entries s; pending := t |}
  | PressSubmit =>
      if Python.truthy (Python.strip (pending s))
      then {| entries := entries s ++ [{| author := "You"; text := Python.strip (pending s) |}];
              pending := "" |}
      else s
  | AddComment user text =>
      {| entries := entries s ++ [{| author := user; text := text |}];
         pending := pending s |}
  end.

(** The widget tree of [w] shows exactly the state [s]. *)
Definition panel_view (ce cl : ref) (w : world) (s : panel_state) : Prop :=
  comments_shown cl w = Some <$> entries s ∧ input_of ce w = Some (pending s).

(** The tree after [destroy] was called on each of [cs] in turn. *)
Definition cleared (n : nat) (cs : list ref) (m : gmap ref widget) : gmap ref widget :=
  foldl (λ m c, tk.without n c m) m cs.

(** The result of call number [k] of [randint 100 1000000]. *)
Definition view_count (rnd : nat → Z) (k : nat) : Z :=
  (100 + rnd k `mod` (1000000 - 100 + 1))%Z.

(** The four widgets one iteration of the loops of [update_grid] creates
    under the grid container [g] when the next free reference is [n]: the
    tile frame, its thumbnail, its title and its view count [v]. *)
Definition tile_block (g n : ref) (i j v : Z) (m : gmap ref widget) : gmap ref widget :=
  <[3 + n := Widget Label (Some n) [("text", Python.str v +:+ " views"); ("fg", "gray")]
      None (Pack []) true ""]>
  (<[2 + n := Widget Label (Some n)
      [("text", "Video " +:+ Python.str (i * 3 + j + 1)); ("wraplength", "180")]
      None (Pack [("pady", "5 0")]) true ""]>
  (<[1 + n := Widget Label (Some n) [("bg", "gray"); ("width", "180"); ("height", "100")]
      None (Pack [("pady", "5 0")]) true ""]>
  (<[n := Widget Frame (Some g)
      [("width", "200"); ("height", "150"); ("bg", "lightgray"); ("bd", "1");
       ("relief", tk.RAISED)]
      None (Grid i j [("padx", "10"); ("pady", "10")]) false ""]> m))).

(** The world after one iteration. *)
Definition tile_step (g : ref) (i j : Z) (w : world) : world :=
  World (heap w)
        (tile_block g (next_ref w) i j (view_count (entropy w) (drawn w)) (widgets w))
        (4 + next_ref w) (events w) (entropy w) (S (drawn w)).

(** The world after the iterations for [cells], in order. *)
Definition fill (g : ref) (cells : list (Z * Z)) (w : world) : world :=
  foldl (λ w c, tile_step g c.1 c.2 w) w cells.

(** The tile the program shows at row [i], column [j] for the count [v]. *)
Definition tile (i j v : Z) : VideoTile :=
  {| row := i; column := j;
     title := "Video " +:+ Python.str (i * 3 + j + 1);
     views := Python.str v +:+ " views" |}.

(** The tiles for [cells] when the first count is the result of [randint]
    call number [d]. *)
Fixpoint tiles_for (rnd : nat → Z) (d : nat) (cells : list (Z * Z)) : list (option VideoTile) :=
  match cells with
  | [] => []
  | (i, j) :: r => Some (tile i j (view_count rnd d)) :: tiles_for rnd (S d) r
  end.

(** The nine cells in the order the two loops visit them. *)
Definition cells : list (Z * Z) := i ← Python.range 3; j ← Python.range 3; [(i, j)].

(** The tiles shown under [g] in world [w]. *)
Definition tiles_shown (g : ref) (w : world) : list (option VideoTile) :=
  tiles (widgets w) (next_ref w) g.

(** The grid panel [self] has been rendered: its container [g] is a live
    widget of a well-formed tree. *)
Definition grid_ready (self g : ref) (w : world) : Prop :=
  wf_tree (widgets w) (next_ref w)
  ∧ attr self "grid" (heap w) = Some g
  ∧ is_Some (widgets w !! g).

#[global] Instance grid_ready_dec self g w : Decision (grid_ready self g w).
Proof. unfold grid_ready. apply _. Defined.

Definition update_log (self : ref) : list event :=
  [Printed "Action logged: update_grid called"; Called "VideoGrid.update_grid" self []].

(** The world [update_grid] leaves: old children of [g] destroyed, nine
    tiles created. *)
Definition refilled (self g : ref) (w : world) : world :=
  fill g cells
    (World (heap w)
           (cleared (next_ref w) (tk.children g (widgets w) (next_ref w)) (widgets w))
           (next_ref w) (events w ++ update_log self) (entropy w) (drawn w)).

(** The line the decorator writes for the function called [name]. *)
Definition log_line (name : string) : string := "Action logged: " +:+ name +:+ " called".

(** [s.startswith(p)]. *)
Fixpoint starts_with (p s : string) : bool :=
  match p, s with
  | EmptyString, _ => true
  | String a p', String b s' => Ascii.eqb a b && starts_with p' s'
  | String _ _, EmptyString => false
  end.

(** An event is a log line when it is a [print] whose text starts with the
    decorator's literal prefix. *)
Definition is_log_line (e : event) : bool :=
  match e with
  | Printed l => starts_with "Action logged: " l
  | Called _ _ _ => false
  end.

(** [m] only appends events, and none of them is a log line. *)
Definition unlogged {A} (m : IO A) : Prop :=
  ∀ w, ∃ rest, events (m w).2 = events w ++ rest
               ∧ Forall (λ e, is_log_line e = false) rest.

(** Started in [w], [m] first writes the log line for [name] and writes no
    other log line afterwards. *)
Definition logs_once {A} (name : string) (m : IO A) (w : world) : Prop :=
  ∃ rest, events (m w).2 = events w ++ Printed (log_line name) :: rest
          ∧ Forall (λ e, is_log_line e = false) rest.

(** The five render methods, by qualified name. *)
Definition render_names : list string :=
  ["Header.create_widget"; "Sidebar.create_widget"; "VideoGrid.create_widget";
   "VideoPlayer.create_widget"; "Comments.create_widget"].

(** The render calls made so far, oldest first. *)
Definition renders (w : world) : list (string * ref) :=
  omap (λ c, match c with
             | (q, s, _) => if decide (q ∈ render_names) then Some (q, s) else None
             end) (calls w).

(** The class of a widget or of an instance. *)
Definition class_of (r : ref) (w : world) : option string := o_class <$> heap w !! r.

(** ** Sample states *)

(** The application just after start-up, for one arbitrary random source:
    the root window is 0, the panels are the objects 1 to 5, the search box
    is widget 9, the grid container 16, the comment box 60 and the comment
    container 62. *)
Definition demo : world := (YouTubeApp.__init__ (boot (λ k, Z.of_nat k * 7919)%Z)).2.

(** The same with a text typed in the comment box or in the search box. *)
Definition demo_comment (s : string) : world := (type_text 60 s demo).2.
Definition demo_query (s : string) : world := (type_text 9 s demo).2.

(** A root window (0) and a Comments panel (1) that was not rendered yet. *)
Definition bare : world :=
  ((root <- tk.Tk "YouTubeApp";; instantiate "Comments" root) (boot (λ _, 0%Z))).2.

(** ** The other panels *)

(** The five widgets [Header.create_widget] builds under [root] when the
    next free reference is [n]: the bar, the brand label, the search frame,
    the search box and the Search button. *)
Definition header_panel (self root n : ref) (m : gmap ref widget) : gmap ref widget :=
  <[4 + n := Widget Button (Some (2 + n)) [("text", "Search")] (Some (self, "search"))
      (Pack [("side", tk.LEFT); ("padx", "5")]) true ""]>
  (<[3 + n := Widget Entry (Some (2 + n)) [("width", "40")] None
      (Pack [("side", tk.LEFT); ("ipady", "5")]) true ""]>
  (<[2 + n := Widget Frame (Some n) [("bg", "red")] None
      (Pack [("side", tk.LEFT); ("expand", "1"); ("fill", tk.X); ("padx", "20")]) true ""]>
  (<[1 + n := Widget Label (Some n)
      [("text", "YouTube"); ("fg", "white"); ("bg", "red"); ("font", "Arial 16 bold")] None
      (Pack [("side", tk.LEFT); ("padx", "10")]) true ""]>
  (<[n := Widget Frame (Some root) [("bg", "red"); ("height", "50")] None
      (Pack [("fill", tk.X)]) true ""]> m)))).

(** One navigation button of the sidebar [f], created at reference [n]. *)
Definition sidebar_button (f n : ref) (label : string) (m : gmap ref widget) :
    gmap ref widget :=
  <[n := Widget Button (Some f) [("text", label); ("width", "15")] None
      (Pack [("pady", "5")]) true ""]> m.

(** The five widgets [Sidebar.create_widget] builds: the bar and its four
    buttons. *)
Definition sidebar_panel (root n : ref) (m : gmap ref widget) : gmap ref widget :=
  sidebar_button n (4 + n) "Library"
    (sidebar_button n (3 + n) "Subscriptions"
       (sidebar_button n (2 + n) "Trending"
          (sidebar_button n (1 + n) "Home"
             (<[n := Widget Frame (Some root) [("bg", "gray"); ("width", "150")] None
                 (Pack [("side", tk.LEFT); ("fill", tk.Y)]) true ""]> m)))).

(** The five widgets [VideoPlayer.create_widget] builds: the player frame,
    the video placeholder, the control bar, Play and Pause. *)
Definition player_panel (root n : ref) (m : gmap ref widget) : gmap ref widget :=
  <[4 + n := Widget Button (Some (2 + n)) [("text", "Pause")] None
      (Pack [("side", tk.LEFT); ("padx", "5")]) true ""]>
  (<[3 + n := Widget Button (Some (2 + n)) [("text", "Play")] None
      (Pack [("side", tk.LEFT); ("padx", "5")]) true ""]>
  (<[2 + n := Widget Frame (Some n) [("bg", "lightgray"); ("height", "30")] None
      (Pack [("fill", tk.X)]) true ""]>
  (<[1 + n := Widget Label (Some n)
      [("bg", "gray"); ("text", "Video Player"); ("fg", "white"); ("font", "Arial 24")] None
      (Pack [("expand", "1"); ("fill", tk.BOTH)]) true ""]>
  (<[n := Widget Frame (Some root) [("bg", "black"); ("height", "400")] None
      (Pack [("fill", tk.X); ("pady", "10")]) true ""]> m)))).

(** The [text] options of the children of [f], in creation order. *)
Definition labels_under (m : gmap ref widget) (n : nat) (f : ref) : list (option string) :=
  text_of m <$> tk.children f m n.

(** What the button [r] is wired to, if it is a live widget. *)
Definition command_of (m : gmap ref widget) (r : ref) : option (option (ref * string)) :=
  w_command <$> m !! r.

Definition search_log (self : ref) (q : string) : list event :=
  [Printed "Action logged: search called"; Called "Header.search" self [];
   Printed ("Searching for: " +:+ q)].

(** Whether a text starts, or ends, with a whitespace character. *)
Definition starts_with_space (s : string) : bool :=
  match s with
  | EmptyString => false
  | String c _ => Python.isspace c
  end.

Fixpoint ends_with_space (s : string) : bool :=
  match s with
  | EmptyString => false
  | String c EmptyString => Python.isspace c
  | String _ r => ends_with_space r
  end.

(** ** The running application *)

(** What the user can do in the window: type in the search box, type in the
    comment box, click on a widget. *)
Inductive user_event :=
| TypeSearch (s : string)
| TypeComment (s : string)
| Click (b : ref).

(** One turn of the event loop, [e] being the search box and [ce] the
    comment box. *)
Definition handle (e ce : ref) (ev : user_event) : IO unit :=
  match ev with
  | TypeSearch s => type_text e s
  | TypeComment s => type_text ce s
  | Click b => press b
  end.

(** A widget is wired to nothing, to the header's [search] or to the
    comments panel's [submit_comment]. *)
Definition wired (h c : ref) (wd : widget) : Prop :=
  w_command wd = None
  ∨ w_command wd = Some (h, "search")
  ∨ w_command wd = Some (c, "submit_comment").

#[global] Instance wired_dec h c wd : Decision (wired h c wd).
Proof. unfold wired. apply _. Defined.

(** The application is up: header [h] with search box [e], comments panel
    [c] with input box [ce] and list container [cl], grid container [g]. *)
Definition app_ready (h e c ce cl g : ref) (w : world) : Prop :=
  comments_ready c ce cl w
  ∧ attr h "search_entry" (heap w) = Some e
  ∧ is_Some (widgets w !! e)
  ∧ is_Some (widgets w !! g)
  ∧ map_Forall (λ _ wd, wired h c wd) (widgets w)
  ∧ cl ≠ g
  ∧ cl ∉ tk.children g (widgets w) (next_ref w).

#[global] Instance app_ready_dec h e c ce cl g w : Decision (app_ready h e c ce cl g w).
Proof. unfold app_ready. apply _. Defined.

(** The application just after start-up, for the random source [rnd]. *)
Definition started (rnd : nat → Z) : world := (YouTubeApp.__init__ (boot rnd)).2.

(** A root window (0) and one panel object (1) of class [cls] that was
    instantiated but not rendered. *)
Definition bare_panel (cls : string) : world :=
  ((root <- tk.Tk "YouTubeApp";; instantiate cls root) (boot (λ _, 0%Z))).2.

(** Where a tile is and what it is called. *)
Definition tile_place (t : VideoTile) : Z * Z * string := (row t, column t, title t).

(** The places of the tiles shown under [g]. *)
Definition tile_places (g : ref) (w : world) : list (option (Z * Z * string)) :=
  (λ t : option VideoTile, tile_place <$> t) <$> tiles_shown g w.

(** * Properties *)

(** ** Strings *)

Lemma rstrip_newline (s : string) :
  Python.rstrip (s +:+ String (ascii_of_nat 10) "") = Python.rstrip s.
Proof.
  induction s as [|c r IH]; [reflexivity|].
  change (String c r +:+ String (ascii_of_nat 10) "")
    with (String c (r +:+ String (ascii_of_nat 10) "")).
  cbn [Python.rstrip]. now rewrite IH.
Qed.

(** The newline Tk appends to the buffer does not survive [strip]. *)
Lemma strip_newline (s : string) :
  Python.strip (s +:+ String (ascii_of_nat 10) "") = Python.strip s.
Proof. unfold Python.strip. now rewrite rstrip_newline. Qed.

Lemma truthy_true (s : string) : Python.truthy s = true ↔ s ≠ "".
Proof. unfold Python.truthy. rewrite bool_decide_eq_true. tauto. Qed.

Lemma truthy_false (s : string) : Python.truthy s = false ↔ s = "".
Proof.
  unfold Python.truthy. rewrite bool_decide_eq_false.
  destruct (decide (s = "")); naive_solver.
Qed.

(** ** The widget tree *)

Section tree.

Implicit Types (m : gmap ref widget) (n : nat) (p r i : ref) (wd : widget).

Lemma filter_ext_in {A} (P Q : A → Prop) `{∀ x, Decision (P x)} `{∀ x, Decision (Q x)}
    (l : list A) :
  (∀ x, x ∈ l → (P x ↔ Q x)) → filter P l = filter Q l.
Proof.
  induction l as [|x l IH]; intros HPQ; [reflexivity|].
  rewrite !filter_cons.
  rewrite IH by (intros y Hy; apply HPQ; now right).
  destruct (decide (P x)) as [HP|HP], (decide (Q x)) as [HQ|HQ]; try reflexivity;
    exfalso; apply HPQ in HP || apply HPQ in HQ; try tauto; now left.
Qed.

Lemma elem_of_children p m n i :
  i ∈ tk.children p m n ↔ i < n ∧ m !! i ≫= w_master = Some p.
Proof.
  unfold tk.children. rewrite list_elem_of_filter, elem_of_seq. intuition lia.
Qed.

(** A widget created at the bound becomes the last child of its master and
    of nobody else. *)
Lemma children_insert_bound p m n wd :
  tk.children p (<[n := wd]> m) (S n) =
  tk.children p m n ++ (if decide (w_master wd = Some p) then [n] else []).
Proof.
  unfold tk.children. rewrite seq_S, filter_app. f_equal.
  - apply filter_ext_in. intros i Hi. apply elem_of_seq in Hi.
    now rewrite lookup_insert_ne by lia.
  - cbn [Nat.add]. rewrite filter_cons, filter_nil, lookup_insert_eq. cbn.
    repeat case_decide; first [reflexivity | contradiction].
Qed.

(** Reconfiguring a widget that keeps its master moves nobody. *)
Lemma children_insert_same p m n r wd wd' :
  m !! r = Some wd → w_master wd' = w_master wd →
  tk.children p (<[r := wd']> m) n = tk.children p m n.
Proof.
  intros Hr Hm. unfold tk.children. apply filter_ext_in. intros i _.
  destruct (decide (i = r)) as [->|Hne].
  - now rewrite lookup_insert_eq, Hr; cbn; rewrite Hm.
  - now rewrite lookup_insert_ne by congruence.
Qed.

Lemma wf_tree_lookup m n i wd :
  wf_tree m n → m !! i = Some wd →
  i < n ∧ ∀ p, w_master wd = Some p → p < i.
Proof.
  intros Hwf Hi. pose proof (map_Forall_lookup_1 _ _ _ _ Hwf Hi) as [Hlt Hp].
  split; [exact Hlt|]. intros p Hm. now rewrite Hm in Hp.
Qed.

Lemma wf_tree_child m n p i :
  wf_tree m n → i ∈ tk.children p m n → p < i ∧ i < n.
Proof.
  intros Hwf [Hi Hm]%elem_of_children.
  destruct (m !! i) as [wd|] eqn:Hl; [|discriminate]. cbn in Hm.
  destruct (wf_tree_lookup _ _ _ _ Hwf Hl) as [_ Hp]. split; [now apply Hp|exact Hi].
Qed.

(** Nothing hangs below a reference that was not handed out yet. *)
Lemma children_fresh m n p : wf_tree m n → n ≤ p → tk.children p m n = [].
Proof.
  intros Hwf Hp. apply elem_of_nil_inv. intros i Hi.
  destruct (wf_tree_child _ _ _ _ Hwf Hi). lia.
Qed.

Lemma wf_tree_insert_bound m n wd :
  wf_tree m n →
  match w_master wd with Some p => p < n | None => True end →
  wf_tree (<[n := wd]> m) (S n).
Proof.
  intros Hwf Hwd. apply map_Forall_insert_2; [split; [lia|exact Hwd]|].
  intros i wd' Hi. destruct (wf_tree_lookup _ _ _ _ Hwf Hi) as [? Hp].
  split; [lia|]. destruct (w_master wd'); [now apply Hp|exact I].
Qed.

Lemma wf_tree_insert_same m n r wd wd' :
  wf_tree m n → m !! r = Some wd → w_master wd' = w_master wd →
  wf_tree (<[r := wd']> m) n.
Proof.
  intros Hwf Hr Hm. pose proof (map_Forall_lookup_1 _ _ _ _ Hwf Hr) as H0.
  apply map_Forall_insert_2; [now rewrite Hm|exact Hwf].
Qed.

Lemma wf_tree_subseteq m m' n : wf_tree m n → m' ⊆ m → wf_tree m' n.
Proof.
  intros Hwf Hsub i wd Hi. apply (Hwf i wd).
  now apply (lookup_weaken _ _ _ _ Hi Hsub).
Qed.

Lemma wf_tree_mono m n n' : wf_tree m n → n ≤ n' → wf_tree m n'.
Proof.
  intros Hwf Hle i wd Hi. destruct (Hwf i wd Hi) as [? ?]. split; [lia|assumption].
Qed.

End tree.

(** ** Running the primitives *)

Lemma bind_ok {A B} (m : IO A) (k : A → IO B) w a w' :
  m w = (Ok a, w') → bind m k w = k a w'.
Proof. intros H. unfold bind. now rewrite H. Qed.

Lemma bind_raise {A B} (m : IO A) (k : A → IO B) w e w' :
  m w = (Raise e, w') → bind m k w = (Raise e, w').
Proof. intros H. unfold bind. now rewrite H. Qed.

Lemma getattr_ok self name w v :
  attr self name (heap w) = Some v → getattr self name w = (Ok v, w).
Proof. intros H. unfold getattr. unfold attr in H. now rewrite H. Qed.

Lemma getattr_raise self name w :
  attr self name (heap w) = None → getattr self name w = (Raise (AttributeError name), w).
Proof. intros H. unfold getattr. unfold attr in H. now rewrite H. Qed.

Lemma setattr_ok self name v w o :
  heap w !! self = Some o →
  setattr self name v w =
  (Ok tt, World (<[self := Object (o_class o) (<[name := v]> (o_dict o))]> (heap w))
                (widgets w) (next_ref w) (events w) (entropy w) (drawn w)).
Proof. intros H. unfold setattr. now rewrite H. Qed.

Lemma create_ok c master o cmd w :
  is_Some (widgets w !! master) →
  tk.create c master o cmd w =
  (Ok (next_ref w),
   World (heap w)
         (<[next_ref w := Widget c (Some master) o cmd Unmanaged true ""]> (widgets w))
         (S (next_ref w)) (events w) (entropy w) (drawn w)).
Proof. intros H. unfold tk.create, tk.alive. now rewrite bool_decide_eq_true_2. Qed.

Lemma configure_ok f r w wd :
  widgets w !! r = Some wd →
  tk.configure f r w =
  (Ok tt, World (heap w) (<[r := f wd]> (widgets w)) (next_ref w) (events w) (entropy w)
                (drawn w)).
Proof. intros H. unfold tk.configure. now rewrite H. Qed.

Lemma Entry_get_ok r w wd :
  widgets w !! r = Some wd → tk.Entry_get r w = (Ok (w_content wd), w).
Proof. intros H. unfold tk.Entry_get. now rewrite H. Qed.

Lemma Text_get_all_ok r w wd :
  widgets w !! r = Some wd →
  tk.Text_get_all r w = (Ok (w_content wd +:+ String (ascii_of_nat 10) ""), w).
Proof. intros H. unfold tk.Text_get_all. now rewrite H. Qed.

Lemma randint_ok a b w :
  randint a b w =
  (Ok (a + entropy w (drawn w) `mod` (b - a + 1))%Z,
   World (heap w) (widgets w) (next_ref w) (events w) (entropy w) (S (drawn w))).
Proof. reflexivity. Qed.

(** Symbolic execution: one primitive at a time, its precondition found
    among the hypotheses or in the inserts made so far. *)
Ltac wsimpl :=
  unfold tk.with_geometry, tk.with_propagate, tk.with_content, tk.with_options;
  cbn [heap widgets next_ref events entropy drawn emit set_heap set_widgets bump draw
       w_class w_master w_options w_command w_geometry w_propagate w_content
       o_class o_dict].

Ltac lookup_solve :=
  wsimpl;
  first [ eassumption
        | apply lookup_insert_eq
        | rewrite lookup_insert_ne by lia; lookup_solve ].

Ltac alive_solve :=
  wsimpl;
  first [ eassumption
        | rewrite lookup_insert_eq; eexists; reflexivity
        | rewrite lookup_insert_ne by lia; alive_solve ].

Ltac attr_solve :=
  wsimpl;
  first [ eassumption
        | unfold attr; rewrite lookup_insert_eq; cbn; apply lookup_insert_eq
        | unfold attr; rewrite lookup_insert_eq; cbn;
          rewrite lookup_insert_ne by discriminate; eassumption ].

Ltac step :=
  first
    [ erewrite (bind_ok (called _ _ _)) by reflexivity
    | erewrite (bind_ok (print _)) by reflexivity
    | erewrite (bind_ok (randint _ _)) by apply randint_ok
    | erewrite (bind_ok (getattr _ _)) by (apply getattr_ok; attr_solve)
    | erewrite (bind_ok (setattr _ _ _)) by (apply setattr_ok; lookup_solve)
    | erewrite (bind_ok (tk.create _ _ _ _)) by (apply create_ok; alive_solve)
    | erewrite (bind_ok (tk.configure _ _)) by (apply configure_ok; lookup_solve)
    | erewrite (bind_ok (tk.Entry_get _)) by (apply Entry_get_ok; lookup_solve)
    | erewrite (bind_ok (tk.Text_get_all _)) by (apply Text_get_all_ok; lookup_solve)
    | erewrite configure_ok by lookup_solve ];
  wsimpl; rewrite ?insert_insert_eq.

(** A loop whose iterations each succeed with a known effect [eff]
    succeeds with the effects applied in order, and keeps an invariant. *)
Lemma for_ok {A} (l : list A) (body : A → IO unit) (eff : A → world → world)
    (I : world → Prop) :
  (∀ x w, x ∈ l → I w → body x w = (Ok tt, eff x w) ∧ I (eff x w)) →
  ∀ w, I w →
    for_ l body w = (Ok tt, foldl (λ w x, eff x w) w l) ∧ I (foldl (λ w x, eff x w) w l).
Proof.
  induction l as [|x l IH]; intros Hbody w HI; [now split|].
  destruct (Hbody x w) as [Hrun HI']; [now left|exact HI|].
  cbn [for_ foldl]. rewrite (bind_ok _ _ _ _ _ Hrun).
  apply IH; [|exact HI']. intros y w' Hy. apply Hbody. now right.
Qed.

(** ** Comments: one comment block *)

Lemma add_comment_run self user text w cl :
  attr self "comments_list" (heap w) = Some cl →
  is_Some (widgets w !! cl) →
  Comments.add_comment self user text w =
    (Ok tt,
     World (heap w) (comment_block cl (next_ref w) user text (widgets w))
           (S (S (S (next_ref w))))
           (events w ++ [Called "Comments.add_comment" self [user; text]])
           (entropy w) (drawn w)).
Proof.
  intros Hattr Halive.
  unfold Comments.add_comment, tk.Frame, tk.Label, tk.pack.
  do 8 step. reflexivity.
Qed.

(** Decide whether a new widget's master is the one asked about. *)
Ltac decide_masters :=
  repeat match goal with
  | |- context [decide (Some ?a = Some ?b)] =>
      first [ rewrite (decide_True (P := Some a = Some b)) by (f_equal; lia)
            | rewrite (decide_False (P := Some a = Some b)) by (intros [=]; lia) ]
  end.

Section comment_tree.

Implicit Types (m : gmap ref widget) (n : nat) (p r i f cl : ref) (wd : widget).

Lemma text_of_insert_ne m r i wd : i ≠ r → text_of (<[r := wd]> m) i = text_of m i.
Proof. intros Hne. unfold text_of. now rewrite lookup_insert_ne by congruence. Qed.

Lemma text_of_insert_same m r i wd wd' :
  m !! r = Some wd → w_options wd' = w_options wd →
  text_of (<[r := wd']> m) i = text_of m i.
Proof.
  intros Hr Ho. destruct (decide (i = r)) as [->|Hne]; [|now apply text_of_insert_ne].
  unfold text_of. rewrite lookup_insert_eq, Hr. cbn. now rewrite Ho.
Qed.

(** A comment block already on screen is not affected by a widget created
    elsewhere. *)
Lemma comment_of_insert_bound m n wd f :
  f < n → w_master wd ≠ Some f →
  comment_of (<[n := wd]> m) (S n) f = comment_of m n f.
Proof.
  intros Hf Hne. unfold comment_of. rewrite children_insert_bound.
  rewrite decide_False, app_nil_r by exact Hne.
  destruct (tk.children f m n) as [|a [|t [|]]] eqn:E; try reflexivity.
  assert (Ha : a ∈ tk.children f m n) by (rewrite E; set_solver).
  assert (Ht : t ∈ tk.children f m n) by (rewrite E; set_solver).
  apply elem_of_children in Ha as [Ha _], Ht as [Ht _].
  now rewrite !text_of_insert_ne by lia.
Qed.

Lemma comment_of_insert_same m n r wd wd' f :
  m !! r = Some wd → w_master wd' = w_master wd → w_options wd' = w_options wd →
  comment_of (<[r := wd']> m) n f = comment_of m n f.
Proof.
  intros Hr Hm Ho. unfold comment_of. rewrite (children_insert_same _ _ _ _ wd) by assumption.
  destruct (tk.children f m n) as [|a [|t [|]]]; try reflexivity.
  now rewrite !(text_of_insert_same _ _ _ wd) by assumption.
Qed.

Lemma comment_list_insert_same m n r wd wd' cl :
  m !! r = Some wd → w_master wd' = w_master wd → w_options wd' = w_options wd →
  comment_list (<[r := wd']> m) n cl = comment_list m n cl.
Proof.
  intros Hr Hm Ho. unfold comment_list.
  rewrite (children_insert_same _ _ _ _ wd) by assumption.
  apply list_fmap_ext. intros _ f _. now apply (comment_of_insert_same _ _ _ wd).
Qed.

Lemma lookup_comment_block_lt m n cl user text r :
  r < n → comment_block cl n user text m !! r = m !! r.
Proof. intros Hr. unfold comment_block. now rewrite !lookup_insert_ne by lia. Qed.

Lemma wf_comment_block m n cl user text :
  wf_tree m n → cl < n → wf_tree (comment_block cl n user text m) (S (S (S n))).
Proof.
  intros Hwf Hcl. unfold comment_block.
  repeat (apply wf_tree_insert_bound; [|cbn; lia]). exact Hwf.
Qed.

(** The new block is the last entry of its container and reads back as the
    (author, text) pair it was made from; the entries before it are the old
    ones. *)
Lemma comment_list_block m n cl user text :
  wf_tree m n → cl < n →
  comment_list (comment_block cl n user text m) (S (S (S n))) cl =
  comment_list m n cl ++ [Some {| author := user; text := text |}].
Proof.
  intros Hwf Hcl. unfold comment_list, comment_block.
  rewrite !children_insert_bound. cbn [w_master].
  decide_masters. rewrite !app_nil_r, fmap_app. f_equal.
  - apply list_fmap_ext. intros k f Hf. apply list_elem_of_lookup_2 in Hf.
    destruct (wf_tree_child _ _ _ _ Hwf Hf) as [Hcf Hfn].
    rewrite !comment_of_insert_bound; first reflexivity; cbn; try lia;
      intros [=]; lia.
  - cbn [fmap list_fmap]. f_equal. unfold comment_of.
    rewrite !children_insert_bound. cbn [w_master].
    rewrite (children_fresh _ _ _ Hwf) by lia.
    decide_masters. cbn [app]. unfold text_of.
    rewrite lookup_insert_eq, lookup_insert_ne, lookup_insert_eq by lia.
    reflexivity.
Qed.

End comment_tree.

(** ** Comments: the panel *)

Lemma alive_lt m n r : wf_tree m n → is_Some (m !! r) → r < n.
Proof. intros Hwf [wd Hr]. now destruct (wf_tree_lookup _ _ _ _ Hwf Hr). Qed.

(** [submit_comment] on an input that strips to something. *)
Lemma submit_comment_run_nonempty self ce cl w wd :
  comments_ready self ce cl w →
  widgets w !! ce = Some wd →
  Python.strip (w_content wd) ≠ "" →
  call Comments.submit_comment self w =
    (Ok tt,
     World (heap w)
       (<[ce := tk.with_content "" wd]>
          (comment_block cl (next_ref w) "You" (Python.strip (w_content wd)) (widgets w)))
       (S (S (S (next_ref w))))
       (events w ++ submit_log self ++
          [Called "Comments.add_comment" self ["You"; Python.strip (w_content wd)]])
       (entropy w) (drawn w)).
Proof.
  intros (Hwf & Hce & Hcl & Hace & Hacl) Hwd Hne.
  pose proof (alive_lt _ _ _ Hwf Hace) as Hlt.
  unfold Comments.submit_comment, log_action, call, Comments.submit_comment_body,
    tk.Text_delete_all.
  cbn [__name__]. do 4 step.
  rewrite strip_newline. rewrite (proj2 (truthy_true _) Hne).
  erewrite (bind_ok (Comments.add_comment _ _ _))
    by (apply add_comment_run; wsimpl; eassumption).
  step.
  erewrite configure_ok
    by (wsimpl; rewrite lookup_comment_block_lt by exact Hlt; exact Hwd).
  wsimpl. unfold submit_log. now rewrite <- !app_assoc.
Qed.

(** [submit_comment] on an input that strips to nothing. *)
Lemma submit_comment_run_empty self ce w wd :
  attr self "comment_entry" (heap w) = Some ce →
  widgets w !! ce = Some wd →
  Python.strip (w_content wd) = "" →
  call Comments.submit_comment self w =
    (Ok tt,
     World (heap w) (widgets w) (next_ref w) (events w ++ submit_log self)
           (entropy w) (drawn w)).
Proof.
  intros Hce Hwd He.
  unfold Comments.submit_comment, log_action, call, Comments.submit_comment_body.
  cbn [__name__]. do 4 step.
  rewrite strip_newline. rewrite (proj2 (truthy_false _) He).
  unfold ret, emit, submit_log. cbn. now rewrite <- !app_assoc.
Qed.

Lemma input_of_Some r w t :
  input_of r w = Some t → ∃ wd, widgets w !! r = Some wd ∧ w_content wd = t.
Proof.
  unfold input_of. destruct (widgets w !! r) as [wd|]; [|discriminate].
  intros [= <-]. now exists wd.
Qed.

Lemma packed_insert_eq m r wd o : w_geometry wd = Pack o → packed (<[r := wd]> m) r = true.
Proof. intros Hg. unfold packed. rewrite lookup_insert_eq. cbn. now rewrite Hg. Qed.

Lemma packed_insert_ne m r i wd : i ≠ r → packed (<[r := wd]> m) i = packed m i.
Proof. intros Hne. unfold packed. now rewrite lookup_insert_ne by congruence. Qed.

(** The block made by [add_comment] is on screen: frame and both labels
    are packed. *)
Lemma comment_block_rendered m n cl user text :
  wf_tree m n → cl < n →
  packed (comment_block cl n user text m) n = true
  ∧ tk.children n (comment_block cl n user text m) (S (S (S n))) = [S n; S (S n)]
  ∧ packed (comment_block cl n user text m) (S n) = true
  ∧ packed (comment_block cl n user text m) (S (S n)) = true.
Proof.
  intros Hwf Hcl. unfold comment_block. repeat split.
  - rewrite !packed_insert_ne by lia. now eapply packed_insert_eq.
  - rewrite !children_insert_bound. cbn [w_master]. decide_masters.
    now rewrite (children_fresh _ _ _ Hwf) by lia.
  - rewrite packed_insert_ne by lia. now eapply packed_insert_eq.
  - now eapply packed_insert_eq.
Qed.

(** C2. Whenever the text in the input box strips to a non-empty string,
    [submit_comment] succeeds, appends exactly one entry
    [{author = "You"; text = stripped input}] at the end of the comment
    list (so the length grows by one), shows its block (frame and labels
    packed as the last child of the list container) and leaves the input
    box empty. *)
Theorem submit_comment_appends_entry self ce cl w t :
  comments_ready self ce cl w →
  input_of ce w = Some t →
  Python.strip t ≠ "" →
  ∃ w',
    call Comments.submit_comment self w = (Ok tt, w')
    ∧ comments_shown cl w' =
        comments_shown cl w ++ [Some {| author := "You"; text := Python.strip t |}]
    ∧ length (comments_shown cl w') = S (length (comments_shown cl w))
    ∧ (∃ f, tk.children cl (widgets w') (next_ref w') =
              tk.children cl (widgets w) (next_ref w) ++ [f]
            ∧ block_rendered w' f = true)
    ∧ input_of ce w' = Some "".
Proof.
  intros Hready (wd & Hwd & <-)%input_of_Some Hne.
  pose proof Hready as (Hwf & Hce & Hcl & Hace & Hacl).
  pose proof (alive_lt _ _ _ Hwf Hace) as Hcelt.
  pose proof (alive_lt _ _ _ Hwf Hacl) as Hcllt.
  assert (Hce' : comment_block cl (next_ref w) "You" (Python.strip (w_content wd))
                   (widgets w) !! ce = Some wd)
    by (now rewrite lookup_comment_block_lt).
  eexists. split; [now apply (submit_comment_run_nonempty _ _ _ _ _ Hready Hwd)|].
  assert (Hlist : comments_shown cl
      (World (heap w)
         (<[ce := tk.with_content "" wd]>
            (comment_block cl (next_ref w) "You" (Python.strip (w_content wd)) (widgets w)))
         (S (S (S (next_ref w))))
         (events w ++ submit_log self ++
            [Called "Comments.add_comment" self ["You"; Python.strip (w_content wd)]])
         (entropy w) (drawn w)) =
      comments_shown cl w ++ [Some {| author := "You"; text := Python.strip (w_content wd) |}]).
  { unfold comments_shown. wsimpl.
    rewrite (comment_list_insert_same _ _ _ wd) by (assumption || reflexivity).
    now apply comment_list_block. }
  split; [exact Hlist|]. split; [rewrite Hlist, length_app; cbn; lia|]. split.
  - exists (next_ref w). unfold block_rendered. wsimpl.
    destruct (comment_block_rendered (widgets w) (next_ref w) cl "You"
                (Python.strip (w_content wd)) Hwf Hcllt) as (Hf & Hch & Ha & Hb).
    rewrite !(children_insert_same _ _ _ _ wd) by (assumption || reflexivity).
    rewrite Hch. cbn [forallb]. rewrite !packed_insert_ne by lia.
    rewrite Hf, Ha, Hb. split; [|reflexivity].
    unfold comment_block. rewrite !children_insert_bound. cbn [w_master].
    decide_masters. now rewrite !app_nil_r.
  - unfold input_of. wsimpl. now rewrite lookup_insert_eq.
Qed.

(** C3. Whenever the text in the input box strips to the empty string,
    [submit_comment] returns normally and changes nothing in the widget
    tree: the comment list (of any container) and its length are what they
    were. *)
Theorem submit_comment_blank_is_noop self ce w t :
  attr self "comment_entry" (heap w) = Some ce →
  input_of ce w = Some t →
  Python.strip t = "" →
  ∃ w',
    call Comments.submit_comment self w = (Ok tt, w')
    ∧ widgets w' = widgets w
    ∧ heap w' = heap w
    ∧ ∀ cl, comments_shown cl w' = comments_shown cl w
            ∧ length (comments_shown cl w') = length (comments_shown cl w).
Proof.
  intros Hce (wd & Hwd & <-)%input_of_Some He.
  eexists. split; [now apply (submit_comment_run_empty _ _ _ _ Hce Hwd)|].
  repeat split; reflexivity.
Qed.

(** C9. Whenever the text in the input box strips to the empty string,
    [submit_comment] leaves the input box holding exactly the text it held
    (and the rest of the widget tree as it was); the box is emptied only on
    the other branch, when the stripped text is non-empty. *)
Theorem submit_comment_blank_keeps_input self ce w t :
  attr self "comment_entry" (heap w) = Some ce →
  input_of ce w = Some t →
  (Python.strip t = "" →
     ∃ w', call Comments.submit_comment self w = (Ok tt, w')
           ∧ input_of ce w' = Some t
           ∧ widgets w' = widgets w)
  ∧ (∀ cl, comments_ready self ce cl w → Python.strip t ≠ "" →
     ∃ w', call Comments.submit_comment self w = (Ok tt, w')
           ∧ input_of ce w' = Some "").
Proof.
  intros Hce Ht. pose proof Ht as (wd & Hwd & <-)%input_of_Some. split.
  - intros He. eexists.
    split; [now apply (submit_comment_run_empty _ _ _ _ Hce Hwd)|].
    split; [exact Ht|reflexivity].
  - intros cl Hready Hne. eexists.
    split; [now apply (submit_comment_run_nonempty _ _ _ _ _ Hready Hwd)|].
    unfold input_of. wsimpl. now rewrite lookup_insert_eq.
Qed.


Lemma attr_lookup self name h v :
  attr self name h = Some v ↔ ∃ o, h !! self = Some o ∧ o_dict o !! name = Some v.
Proof.
  unfold attr. destruct (h !! self) as [o|]; cbn; split.
  - intros H. now exists o.
  - now intros (o' & [= <-] & H).
  - discriminate.
  - now intros (o' & [=] & _).
Qed.

Lemma Comments_create_widget_run self root w o :
  heap w !! self = Some o →
  o_dict o !! "master" = Some root →
  is_Some (widgets w !! root) →
  Comments.create_widget self w =
    (Ok tt,
     World (<[self := comments_attrs (next_ref w) o]> (heap w))
           (comments_panel self root (next_ref w) (widgets w))
           (11 + next_ref w)
           (events w ++ render_log self)
           (entropy w) (drawn w)).
Proof.
  intros Ho Hm Hroot.
  assert (Hattr : attr self "master" (heap w) = Some root)
    by (apply attr_lookup; eauto).
  unfold Comments.create_widget, tk.Frame, tk.Label, tk.Text, tk.Button, tk.pack.
  do 16 step.
  erewrite (bind_ok (Comments.add_comment _ _ _))
    by (apply add_comment_run; first [attr_solve|alive_solve]).
  wsimpl.
  erewrite add_comment_run
    by (wsimpl; first [attr_solve|rewrite lookup_comment_block_lt by lia; alive_solve]).
  wsimpl. unfold render_log. now rewrite <- !app_assoc.
Qed.

Lemma is_Some_insert_same (m : gmap ref widget) r i wd :
  is_Some (m !! r) → is_Some (m !! i) → is_Some (<[r := wd]> m !! i).
Proof.
  intros _ Hi. destruct (decide (i = r)) as [->|Hne].
  - rewrite lookup_insert_eq. eauto.
  - now rewrite lookup_insert_ne by congruence.
Qed.

Lemma add_comment_ready self ce cl w user text :
  comments_ready self ce cl w →
  ∃ w', Comments.add_comment self user text w = (Ok tt, w')
        ∧ comments_ready self ce cl w'
        ∧ comments_shown cl w' =
            comments_shown cl w ++ [Some {| author := user; text := text |}]
        ∧ input_of ce w' = input_of ce w.
Proof.
  intros (Hwf & Hce & Hcl & Hace & Hacl).
  pose proof (alive_lt _ _ _ Hwf Hace). pose proof (alive_lt _ _ _ Hwf Hacl).
  eexists. split; [now apply (add_comment_run _ _ _ _ cl)|].
  unfold comments_ready, comments_shown, input_of. wsimpl.
  rewrite !lookup_comment_block_lt by assumption.
  split_and!; try assumption; try reflexivity.
  - now apply wf_comment_block.
  - now apply comment_list_block.
Qed.

Lemma type_text_ready self ce cl w s :
  comments_ready self ce cl w →
  ∃ w', type_text ce s w = (Ok tt, w')
        ∧ comments_ready self ce cl w'
        ∧ comments_shown cl w' = comments_shown cl w
        ∧ input_of ce w' = Some s.
Proof.
  intros (Hwf & Hce & Hcl & Hace & Hacl). destruct Hace as [wd Hwd].
  eexists. split; [unfold type_text; apply (configure_ok _ _ _ wd Hwd)|].
  unfold comments_ready, comments_shown, input_of. wsimpl.
  rewrite lookup_insert_eq. split_and!; try assumption; try reflexivity.
  - now apply (wf_tree_insert_same _ _ _ wd).
  - eauto.
  - apply is_Some_insert_same; eauto.
  - now apply (comment_list_insert_same _ _ _ wd).
Qed.

Lemma submit_comment_ready self ce cl w t :
  comments_ready self ce cl w →
  input_of ce w = Some t →
  ∃ w', call Comments.submit_comment self w = (Ok tt, w')
        ∧ comments_ready self ce cl w'
        ∧ (if Python.truthy (Python.strip t)
           then comments_shown cl w' =
                  comments_shown cl w ++ [Some {| author := "You"; text := Python.strip t |}]
                ∧ input_of ce w' = Some ""
           else comments_shown cl w' = comments_shown cl w ∧ input_of ce w' = Some t).
Proof.
  intros Hready Ht. pose proof Ht as (wd & Hwd & <-)%input_of_Some.
  pose proof Hready as (Hwf & Hce & Hcl & Hace & Hacl).
  pose proof (alive_lt _ _ _ Hwf Hace). pose proof (alive_lt _ _ _ Hwf Hacl).
  destruct (Python.truthy (Python.strip (w_content wd))) eqn:Etr.
  - apply truthy_true in Etr. eexists.
    split; [now apply (submit_comment_run_nonempty _ _ _ _ _ Hready Hwd)|].
    assert (Hwd' : comment_block cl (next_ref w) "You" (Python.strip (w_content wd))
                     (widgets w) !! ce = Some wd)
      by (now rewrite lookup_comment_block_lt).
    unfold comments_ready, comments_shown, input_of. wsimpl.
    rewrite lookup_insert_eq.
    rewrite (comment_list_insert_same _ _ _ wd) by (assumption || reflexivity).
    split_and!; try assumption; try reflexivity.
    + apply (wf_tree_insert_same _ _ _ wd); [|assumption|reflexivity].
      now apply wf_comment_block.
    + eauto.
    + apply is_Some_insert_same; [eauto|]. now rewrite lookup_comment_block_lt.
    + now apply comment_list_block.
  - apply truthy_false in Etr. eexists.
    split; [now apply (submit_comment_run_empty _ _ _ _ Hce Hwd)|].
    unfold comments_ready, comments_shown, input_of. wsimpl. now split_and!.
Qed.

(** One action on a rendered panel succeeds, and the tree then shows what
    the specification's step function says. *)
Lemma perform_refines self ce cl w s a :
  comments_ready self ce cl w → panel_view ce cl w s →
  ∃ w', perform self ce a w = (Ok tt, w')
        ∧ comments_ready self ce cl w'
        ∧ panel_view ce cl w' (spec_step s a).
Proof.
  intros Hready [Hl Hi]. destruct a as [t| |user text]; cbn [perform spec_step].
  - destruct (type_text_ready _ _ _ _ t Hready) as (w' & Hrun & Hr' & Hl' & Hi').
    exists w'. split; [exact Hrun|]. split; [exact Hr'|]. split; cbn; congruence.
  - destruct (submit_comment_ready _ _ _ _ _ Hready Hi) as (w' & Hrun & Hr' & Hv).
    exists w'. split; [exact Hrun|]. split; [exact Hr'|].
    destruct (Python.truthy (Python.strip (pending s))); destruct Hv as [Hl' Hi'];
      split; cbn; try assumption.
    + now rewrite Hl', Hl, fmap_app.
    + congruence.
  - destruct (add_comment_ready _ _ _ _ user text Hready) as (w' & Hrun & Hr' & Hl' & Hi').
    exists w'. split; [exact Hrun|]. split; [exact Hr'|]. split; cbn.
    + now rewrite Hl', Hl, fmap_app.
    + congruence.
Qed.

Lemma session_refines self ce cl (acts : list action) : ∀ w s,
  comments_ready self ce cl w → panel_view ce cl w s →
  ∃ w', for_ acts (perform self ce) w = (Ok tt, w')
        ∧ comments_ready self ce cl w'
        ∧ panel_view ce cl w' (foldl spec_step s acts).
Proof.
  induction acts as [|a acts IH]; intros w s Hready Hview; [now exists w|].
  destruct (perform_refines _ _ _ _ _ a Hready Hview) as (w1 & Hrun & Hr1 & Hv1).
  destruct (IH _ _ Hr1 Hv1) as (w' & Hrun' & Hr' & Hv').
  exists w'. cbn [for_ foldl]. now rewrite (bind_ok _ _ _ _ _ Hrun).
Qed.

(** In the specification's model nothing is ever removed or reordered. *)
Lemma spec_step_prefix (acts : list action) : ∀ s,
  entries s `prefix_of` entries (foldl spec_step s acts).
Proof.
  induction acts as [|a acts IH]; intros s; [reflexivity|]. cbn [foldl].
  etransitivity; [|apply IH].
  destruct a as [t| |user text]; cbn; try reflexivity.
  - destruct (Python.truthy _); [apply prefix_app_r|]; reflexivity.
  - now apply prefix_app_r.
Qed.

Lemma lookup_comments_frame_lt self root n m r :
  r < n → comments_frame self root n m !! r = m !! r.
Proof. intros Hr. unfold comments_frame. now rewrite !lookup_insert_ne by lia. Qed.

Lemma lookup_comments_panel_lt self root n m r :
  r < n → comments_panel self root n m !! r = m !! r.
Proof.
  intros Hr. unfold comments_panel.
  rewrite !lookup_comment_block_lt by lia. now apply lookup_comments_frame_lt.
Qed.

Lemma wf_comments_frame self root n m :
  wf_tree m n → root < n → wf_tree (comments_frame self root n m) (5 + n).
Proof.
  intros Hwf Hroot. unfold comments_frame.
  repeat (apply wf_tree_insert_bound; [|cbn; lia]). exact Hwf.
Qed.

Lemma wf_comments_panel self root n m :
  wf_tree m n → root < n → wf_tree (comments_panel self root n m) (11 + n).
Proof.
  intros Hwf Hroot. unfold comments_panel.
  apply (wf_comment_block _ (8 + n)); [|lia].
  apply (wf_comment_block _ (5 + n)); [|lia].
  now apply wf_comments_frame.
Qed.

(** A container just created holds nothing. *)
Lemma comment_list_comments_frame self root n m :
  wf_tree m n → root < n →
  comment_list (comments_frame self root n m) (5 + n) (4 + n) = [].
Proof.
  intros Hwf Hroot. unfold comment_list, comments_frame. cbn [Nat.add].
  rewrite !children_insert_bound. cbn [w_master]. decide_masters.
  now rewrite (children_fresh _ _ _ Hwf) by lia.
Qed.

(** The freshly rendered panel shows the two sample comments, in order. *)
Lemma comment_list_comments_panel self root n m :
  wf_tree m n → root < n →
  comment_list (comments_panel self root n m) (11 + n) (4 + n) = [Some seed1; Some seed2].
Proof.
  intros Hwf Hroot. unfold comments_panel.
  pose proof (wf_comments_frame self _ _ _ Hwf Hroot) as Hwf5.
  pose proof (wf_comment_block _ _ (4 + n) "User1" "Great video!" Hwf5 ltac:(lia)) as Hwf8.
  change (11 + n) with (S (S (S (8 + n)))).
  rewrite comment_list_block by (assumption || lia).
  change (8 + n) with (S (S (S (5 + n)))).
  rewrite comment_list_block by (assumption || lia).
  now rewrite comment_list_comments_frame.
Qed.

Lemma Comments_create_widget_ready self root w :
  wf_tree (widgets w) (next_ref w) →
  attr self "master" (heap w) = Some root →
  is_Some (widgets w !! root) →
  ∃ w1,
    Comments.create_widget self w = (Ok tt, w1)
    ∧ comments_ready self (2 + next_ref w) (4 + next_ref w) w1
    ∧ panel_view (2 + next_ref w) (4 + next_ref w) w1
        {| entries := [seed1; seed2]; pending := "" |}
    ∧ events w1 = events w ++ render_log self
    ∧ next_ref w1 = 11 + next_ref w
    ∧ attr self "master" (heap w1) = Some root
    ∧ (∀ r, r < next_ref w → widgets w1 !! r = widgets w !! r).
Proof.
  intros Hwf Hattr Hroot. pose proof (alive_lt _ _ _ Hwf Hroot) as Hlt.
  apply attr_lookup in Hattr as (o & Ho & Hm).
  eexists. split; [now apply (Comments_create_widget_run _ root _ o)|].
  unfold comments_ready, panel_view, comments_shown, input_of. wsimpl.
  split_and!.
  - now apply wf_comments_panel.
  - unfold attr. rewrite lookup_insert_eq. cbn.
    now rewrite lookup_insert_ne, lookup_insert_eq by discriminate.
  - unfold attr. rewrite lookup_insert_eq. cbn. now rewrite lookup_insert_eq.
  - unfold comments_panel, comments_frame.
    rewrite !lookup_comment_block_lt by lia.
    rewrite !lookup_insert_ne, lookup_insert_eq by lia. eauto.
  - unfold comments_panel, comments_frame.
    rewrite !lookup_comment_block_lt by lia. rewrite lookup_insert_eq. eauto.
  - now apply comment_list_comments_panel.
  - unfold comments_panel, comments_frame.
    rewrite !lookup_comment_block_lt by lia.
    now rewrite !lookup_insert_ne, lookup_insert_eq by lia.
  - reflexivity.
  - reflexivity.
  - unfold attr. rewrite lookup_insert_eq. cbn.
    now rewrite !lookup_insert_ne by discriminate.
  - intros r Hr. now apply lookup_comments_panel_lt.
Qed.

(** C4. Rendering the Comments panel succeeds and leaves a comment list
    holding exactly the two sample entries, User1 then User2, under the
    container stored in [self.comments_list], with an empty input box stored
    in [self.comment_entry]; [add_comment "Alice" "Hi"] on that panel then
    succeeds unconditionally and gives exactly three entries, the first two
    unchanged and the third [{author = "Alice"; text = "Hi"}]; and whatever
    is done afterwards (typing in that input box, submitting, adding), the
    panel shows what the specification's append-only model computes, so the
    list shown at any moment is a prefix of the list shown at any later
    moment: entries are appended in insertion order and never removed. *)
Theorem comments_render_then_append self root w :
  wf_tree (widgets w) (next_ref w) →
  attr self "master" (heap w) = Some root →
  is_Some (widgets w !! root) →
  ∃ w1 ce cl,
    Comments.create_widget self w = (Ok tt, w1)
    ∧ attr self "comment_entry" (heap w1) = Some ce
    ∧ attr self "comments_list" (heap w1) = Some cl
    ∧ comments_ready self ce cl w1
    ∧ input_of ce w1 = Some ""
    ∧ comments_shown cl w1 = [Some seed1; Some seed2]
    ∧ (∃ w2, Comments.add_comment self "Alice" "Hi" w1 = (Ok tt, w2)
             ∧ comments_shown cl w2 =
                 [Some seed1; Some seed2; Some {| author := "Alice"; text := "Hi" |}])
    ∧ (∀ acts acts', ∃ wa wb,
         for_ acts (perform self ce) w1 = (Ok tt, wa)
         ∧ for_ acts' (perform self ce) wa = (Ok tt, wb)
         ∧ panel_view ce cl wa
             (foldl spec_step {| entries := [seed1; seed2]; pending := "" |} acts)
         ∧ panel_view ce cl wb
             (foldl spec_step {| entries := [seed1; seed2]; pending := "" |} (acts ++ acts'))
         ∧ attr self "comment_entry" (heap wa) = Some ce
         ∧ attr self "comments_list" (heap wa) = Some cl
         ∧ comments_shown cl wa `prefix_of` comments_shown cl wb
         ∧ length (comments_shown cl w1) ≤ length (comments_shown cl wa)).
Proof.
  intros Hwf Hattr Hroot.
  destruct (Comments_create_widget_ready _ _ _ Hwf Hattr Hroot)
    as (w1 & Hrun & Hready & Hview & _).
  exists w1, (2 + next_ref w), (4 + next_ref w).
  split; [exact Hrun|]. split; [apply Hready|]. split; [apply Hready|].
  split; [exact Hready|]. split; [apply Hview|]. split; [apply Hview|]. split.
  - destruct (add_comment_ready _ _ _ _ "Alice" "Hi" Hready) as (w2 & Hrun2 & _ & Hl & _).
    exists w2. split; [exact Hrun2|]. rewrite Hl. now rewrite (proj1 Hview).
  - intros acts acts'.
    destruct (session_refines _ _ _ acts _ _ Hready Hview) as (wa & Hruna & Hra & Hva).
    destruct (session_refines _ _ _ acts' _ _ Hra Hva) as (wb & Hrunb & Hrb & Hvb).
    exists wa, wb. split; [exact Hruna|]. split; [exact Hrunb|].
    split; [exact Hva|]. split; [now rewrite foldl_app|].
    split; [apply Hra|]. split; [apply Hra|].
    rewrite (proj1 Hva), (proj1 Hvb), (proj1 Hview). split.
    + destruct (spec_step_prefix acts' (foldl spec_step
          {| entries := [seed1; seed2]; pending := "" |} acts)) as [k Hk].
      exists (Some <$> k). now rewrite Hk, fmap_app.
    + rewrite !length_fmap. apply prefix_length.
      apply (spec_step_prefix acts {| entries := [seed1; seed2]; pending := "" |}).
Qed.

(** ** Destroying widgets *)

Section destroy.

Implicit Types (m : gmap ref widget) (n fuel : nat) (c g i : ref) (cs : list ref).

Lemma under_self fuel m c : tk.under fuel m c c = true.
Proof. destruct fuel; cbn; now rewrite bool_decide_eq_true_2. Qed.

(** In a well-formed tree nothing older than [c] hangs below [c]. *)
Lemma under_older fuel m n c : wf_tree m n → ∀ i, i < c → tk.under fuel m c i = false.
Proof.
  intros Hwf. induction fuel as [|fuel IH]; intros i Hi; cbn;
    rewrite bool_decide_eq_false_2 by lia; [reflexivity|]. cbn.
  destruct (m !! i) as [wd|] eqn:Hl; [|reflexivity]. cbn.
  destruct (w_master wd) as [p|] eqn:Hm; [|reflexivity].
  destruct (wf_tree_lookup _ _ _ _ Hwf Hl) as [_ Hp]. specialize (Hp _ Hm).
  apply IH. lia.
Qed.

Lemma without_subseteq n c m : tk.without n c m ⊆ m.
Proof. apply map_filter_subseteq. Qed.

Lemma without_self n c m : tk.without n c m !! c = None.
Proof.
  apply map_lookup_filter_None. right. intros wd _. cbn.
  now rewrite under_self.
Qed.

Lemma without_older n c m i : wf_tree m n → i < c → tk.without n c m !! i = m !! i.
Proof.
  intros Hwf Hi. destruct (m !! i) as [wd|] eqn:Hl.
  - apply map_lookup_filter_Some. split; [exact Hl|]. cbn.
    now apply (under_older _ _ n).
  - apply map_lookup_filter_None. now left.
Qed.

Lemma cleared_subseteq n cs : ∀ m, cleared n cs m ⊆ m.
Proof.
  induction cs as [|c cs IH]; intros m; [reflexivity|]. cbn.
  etransitivity; [apply IH|apply without_subseteq].
Qed.

Lemma wf_cleared n cs m : wf_tree m n → wf_tree (cleared n cs m) n.
Proof. intros Hwf. apply (wf_tree_subseteq m); [exact Hwf|apply cleared_subseteq]. Qed.

(** Every widget [destroy] was called on is gone. *)
Lemma cleared_gone n cs : ∀ m c, c ∈ cs → cleared n cs m !! c = None.
Proof.
  induction cs as [|c' cs IH]; intros m c Hc; [now apply elem_of_nil in Hc|].
  cbn. apply elem_of_cons in Hc as [->|Hc]; [|now apply IH].
  apply (lookup_weaken_None _ (tk.without n c' m)); [apply without_self|].
  apply cleared_subseteq.
Qed.

(** Widgets older than all of [cs] stay. *)
Lemma cleared_older n cs : ∀ m i,
  wf_tree m n → (∀ c, c ∈ cs → i < c) → cleared n cs m !! i = m !! i.
Proof.
  induction cs as [|c cs IH]; intros m i Hwf Hi; [reflexivity|].
  change (cleared n (c :: cs) m) with (cleared n cs (tk.without n c m)).
  rewrite IH.
  - apply without_older; [exact Hwf|]. apply Hi. now left.
  - apply (wf_tree_subseteq m); [exact Hwf|apply without_subseteq].
  - intros c' Hc'. apply Hi. now right.
Qed.

(** Once every child of [g] was destroyed, [g] has no child left. *)
Lemma children_cleared n m g : tk.children g (cleared n (tk.children g m n) m) n = [].
Proof.
  apply elem_of_nil_inv. intros i [Hi Hm]%elem_of_children.
  destruct (cleared n (tk.children g m n) m !! i) as [wd|] eqn:Hl; [|discriminate].
  cbn in Hm. pose proof (lookup_weaken _ _ _ _ Hl (cleared_subseteq _ _ _)) as Hl'.
  assert (Hin : i ∈ tk.children g m n)
    by (apply elem_of_children; split; [exact Hi|now rewrite Hl']).
  rewrite (cleared_gone _ _ _ _ Hin) in Hl. discriminate.
Qed.

Lemma for_destroy_run cs : ∀ w,
  for_ cs (λ widget, tk.destroy widget) w =
  (Ok tt, World (heap w) (cleared (next_ref w) cs (widgets w)) (next_ref w) (events w)
                (entropy w) (drawn w)).
Proof.
  induction cs as [|c cs IH]; intros w; [now destruct w|].
  cbn [for_]. erewrite bind_ok by reflexivity. now rewrite IH.
Qed.

End destroy.

(** ** The video grid *)

Lemma view_count_range rnd k : (100 ≤ view_count rnd k ≤ 1000000)%Z.
Proof.
  unfold view_count.
  pose proof (Z.mod_pos_bound (rnd k) (1000000 - 100 + 1) ltac:(lia)). lia.
Qed.

Section tile_tree.

Implicit Types (m : gmap ref widget) (n : nat) (g r f : ref) (i j v : Z).

Lemma lookup_tile_block_lt m n g i j v r :
  r < n → tile_block g n i j v m !! r = m !! r.
Proof. intros Hr. unfold tile_block. now rewrite !lookup_insert_ne by lia. Qed.

Lemma wf_tile_block m n g i j v :
  wf_tree m n → g < n → wf_tree (tile_block g n i j v m) (4 + n).
Proof.
  intros Hwf Hg. unfold tile_block.
  repeat (apply wf_tree_insert_bound; [|cbn; lia]). exact Hwf.
Qed.

(** A tile already on screen is not affected by a widget created
    elsewhere. *)
Lemma tile_of_insert_bound m n wd f :
  f < n → w_master wd ≠ Some f →
  tile_of (<[n := wd]> m) (S n) f = tile_of m n f.
Proof.
  intros Hf Hne. unfold tile_of. rewrite children_insert_bound.
  rewrite decide_False, app_nil_r by exact Hne.
  rewrite lookup_insert_ne by lia.
  destruct (m !! f ≫= _) as [[[] []]|]; try reflexivity.
  destruct (tk.children f m n) as [|a [|t [|b [|]]]] eqn:E; try reflexivity.
  assert (Ht : t ∈ tk.children f m n) by (rewrite E; set_solver).
  assert (Hb : b ∈ tk.children f m n) by (rewrite E; set_solver).
  apply elem_of_children in Hb as [Hb _], Ht as [Ht _].
  now rewrite !text_of_insert_ne by lia.
Qed.

(** The new tile is the last one under the grid container and reads back
    as [tile i j v]; the tiles before it are the old ones. *)
Lemma tiles_tile_block m n g i j v :
  wf_tree m n → g < n →
  tiles (tile_block g n i j v m) (4 + n) g = tiles m n g ++ [Some (tile i j v)].
Proof.
  intros Hwf Hg. unfold tiles, tile_block. cbn [Nat.add].
  rewrite !children_insert_bound. cbn [w_master]. decide_masters.
  rewrite !app_nil_r, fmap_app. f_equal.
  - apply list_fmap_ext. intros k f Hf. apply list_elem_of_lookup_2 in Hf.
    destruct (wf_tree_child _ _ _ _ Hwf Hf) as [Hgf Hfn].
    rewrite !tile_of_insert_bound; first reflexivity; cbn; try lia;
      intros [=]; lia.
  - cbn [fmap list_fmap]. f_equal. unfold tile_of.
    rewrite !children_insert_bound. cbn [w_master].
    rewrite (children_fresh _ _ _ Hwf) by lia.
    decide_masters. cbn [app].
    rewrite !lookup_insert_ne, lookup_insert_eq by lia. cbn.
    unfold text_of.
    rewrite lookup_insert_eq, lookup_insert_ne, lookup_insert_eq by lia.
    reflexivity.
Qed.

End tile_tree.

Lemma fill_cons g c cs w : fill g (c :: cs) w = fill g cs (tile_step g c.1 c.2 w).
Proof. reflexivity. Qed.

(** What a run of iterations leaves, whatever the cells. *)
Lemma fill_spec g cs : ∀ w,
  wf_tree (widgets w) (next_ref w) → g < next_ref w →
  let w' := fill g cs w in
  wf_tree (widgets w') (next_ref w')
  ∧ tiles_shown g w' = tiles_shown g w ++ tiles_for (entropy w) (drawn w) cs
  ∧ (∀ r, r < next_ref w → widgets w' !! r = widgets w !! r)
  ∧ next_ref w' = 4 * length cs + next_ref w
  ∧ heap w' = heap w ∧ events w' = events w ∧ entropy w' = entropy w
  ∧ drawn w' = length cs + drawn w.
Proof.
  induction cs as [|[i j] cs IH]; intros w Hwf Hg.
  - cbn. unfold tiles_shown. rewrite app_nil_r. now split_and!.
  - cbn zeta. rewrite fill_cons. cbn [fst snd].
    assert (Hwf1 : wf_tree (widgets (tile_step g i j w)) (next_ref (tile_step g i j w)))
      by (now apply wf_tile_block).
    assert (Hg1 : g < next_ref (tile_step g i j w)) by (cbn; lia).
    destruct (IH _ Hwf1 Hg1) as (Hwf' & Ht & Hl & Hn & Hh & He & Hr & Hd).
    split_and!; try assumption.
    + rewrite Ht. unfold tiles_shown at 1. cbn [widgets next_ref tile_step entropy drawn].
      rewrite tiles_tile_block by assumption.
      now rewrite <- app_assoc.
    + intros r Hr'. rewrite Hl by (cbn; lia). cbn [widgets tile_step].
      now apply lookup_tile_block_lt.
    + rewrite Hn. cbn [next_ref tile_step length]. lia.
    + rewrite Hd. cbn [drawn tile_step length]. lia.
Qed.

Lemma winfo_children_ok r w :
  is_Some (widgets w !! r) →
  tk.winfo_children r w = (Ok (tk.children r (widgets w) (next_ref w)), w).
Proof. intros H. unfold tk.winfo_children, tk.alive. now rewrite bool_decide_eq_true_2. Qed.

Lemma fill_nested g w :
  foldl (λ w i, foldl (λ w j, tile_step g i j w) w (Python.range 3)) w (Python.range 3)
  = fill g cells w.
Proof. reflexivity. Qed.

(** [update_grid] on a rendered grid panel. *)
Lemma update_grid_run self g w :
  grid_ready self g w →
  call VideoGrid.update_grid self w = (Ok tt, refilled self g w).
Proof.
  intros (Hwf & Hattr & Halive).
  pose proof (alive_lt _ _ _ Hwf Halive) as Hlt.
  unfold VideoGrid.update_grid, log_action, call, VideoGrid.update_grid_body.
  cbn [__name__]. do 3 step.
  erewrite (bind_ok (tk.winfo_children _)) by (apply winfo_children_ok; alive_solve).
  wsimpl.
  erewrite (bind_ok (for_ _ _)) by apply for_destroy_run.
  wsimpl. rewrite <- app_assoc.
  change ([Printed ("Action logged: " +:+ "update_grid" +:+ " called")] ++
          [Called "VideoGrid.update_grid" self []]) with (update_log self).
  unfold refilled. rewrite <- fill_nested.
  set (I := λ w' : world,
         attr self "grid" (heap w') = Some g
         ∧ is_Some (widgets w' !! g) ∧ g < next_ref w').
  refine (proj1 (for_ok _ _
            (λ i w', foldl (λ w j, tile_step g i j w) w' (Python.range 3)) I _ _ _)).
  - intros i w1 _ HI.
    apply (for_ok _ _ (λ j w', tile_step g i j w') I); [|exact HI].
    clear HI. intros j w2 _ (Hattr2 & Halive2 & Hlt2). split.
    + unfold tk.Frame, tk.Label, tk.pack, tk.grid, tk.pack_propagate.
      do 10 step. erewrite configure_ok by lookup_solve. wsimpl.
      rewrite insert_insert_eq. reflexivity.
    + unfold I. cbn [heap widgets next_ref tile_step].
      rewrite lookup_tile_block_lt by exact Hlt2. split_and!; [assumption..|lia].
  - unfold I. wsimpl. split_and!; [exact Hattr| |exact Hlt].
    rewrite (cleared_older _ _ _ _ Hwf); [exact Halive|].
    intros c Hc. now destruct (wf_tree_child _ _ _ _ Hwf Hc).
Qed.

Lemma tiles_for_cells_lookup rnd d (i j : nat) :
  i < 3 → j < 3 →
  tiles_for rnd d cells !! (i * 3 + j) =
  Some (Some (tile (Z.of_nat i) (Z.of_nat j) (view_count rnd (i * 3 + j + d)))).
Proof.
  intros Hi Hj.
  destruct i as [|[|[|i]]]; [| | |lia]; destruct j as [|[|[|j]]]; try lia; reflexivity.
Qed.

Lemma tiles_for_length rnd cs : ∀ d, length (tiles_for rnd d cs) = length cs.
Proof. induction cs as [|[i j] cs IH]; intros d; cbn; [reflexivity|now rewrite IH]. Qed.

(** What [update_grid] leaves behind. *)
Lemma refilled_spec self g w :
  grid_ready self g w →
  let w' := refilled self g w in
  grid_ready self g w'
  ∧ tiles_shown g w' = tiles_for (entropy w) (drawn w) cells
  ∧ (∀ c, c ∈ tk.children g (widgets w) (next_ref w) → widgets w' !! c = None)
  ∧ (∀ c, c ∈ tk.children g (widgets w') (next_ref w') → next_ref w ≤ c)
  ∧ next_ref w' = 36 + next_ref w
  ∧ heap w' = heap w
  ∧ events w' = events w ++ update_log self
  ∧ entropy w' = entropy w
  ∧ drawn w' = 9 + drawn w.
Proof.
  intros (Hwf & Hattr & Halive). pose proof (alive_lt _ _ _ Hwf Halive) as Hlt.
  unfold refilled.
  set (w1 := World (heap w)
               (cleared (next_ref w) (tk.children g (widgets w) (next_ref w)) (widgets w))
               (next_ref w) (events w ++ update_log self) (entropy w) (drawn w)).
  assert (Hwf1 : wf_tree (widgets w1) (next_ref w1)) by (now apply wf_cleared).
  assert (Hg1 : widgets w1 !! g = widgets w !! g).
  { apply (cleared_older _ _ _ _ Hwf). intros c Hc.
    now destruct (wf_tree_child _ _ _ _ Hwf Hc). }
  assert (Hch1 : tk.children g (widgets w1) (next_ref w1) = []) by apply children_cleared.
  destruct (fill_spec g cells w1 Hwf1 Hlt) as (Hwf' & Ht & Hl & Hn & Hh & He & Hr & Hd).
  cbn zeta. split_and!.
  - split_and!; [exact Hwf'|now rewrite Hh|]. rewrite Hl by exact Hlt. now rewrite Hg1.
  - rewrite Ht. unfold tiles_shown, tiles. now rewrite Hch1.
  - intros c Hc. pose proof Hc as [Hcn _]%elem_of_children.
    rewrite Hl by exact Hcn. now apply cleared_gone.
  - intros c [Hc Hm]%elem_of_children.
    destruct (decide (c < next_ref w)) as [Hlt'|]; [exfalso|lia].
    rewrite Hl in Hm by exact Hlt'.
    assert (Hin : c ∈ tk.children g (widgets w1) (next_ref w1))
      by (apply elem_of_children; now split).
    rewrite Hch1 in Hin. now apply elem_of_nil in Hin.
  - exact Hn.
  - exact Hh.
  - exact He.
  - exact Hr.
  - exact Hd.
Qed.

(** Any number of earlier calls leaves the panel ready for the next. *)
Lemma rebuilds_ready self g (k : nat) : ∀ w,
  grid_ready self g w →
  ∃ wk, for_ (replicate k self) (call VideoGrid.update_grid) w = (Ok tt, wk)
        ∧ grid_ready self g wk.
Proof.
  induction k as [|k IH]; intros w Hready; [now exists w|].
  destruct (IH _ (proj1 (refilled_spec _ _ _ Hready))) as (wk & Hrun & Hk).
  exists wk. split; [|exact Hk]. cbn [replicate for_].
  now rewrite (bind_ok _ _ _ _ _ (update_grid_run _ _ _ Hready)).
Qed.

(** C1. On a rendered grid panel, after any number [k] of earlier calls,
    [update_grid] succeeds; every widget that was attached to the grid
    container before the call is destroyed; the container then holds exactly
    nine tiles, all newly created, and the tile at position [i * 3 + j]
    (rows and columns 0..2), the one titled "Video [i * 3 + j + 1]", is
    placed at grid row [i], column [j]. *)
Theorem update_grid_rebuilds_nine_tiles self g w (k : nat) :
  grid_ready self g w →
  ∃ wk w',
    for_ (replicate k self) (call VideoGrid.update_grid) w = (Ok tt, wk)
    ∧ call VideoGrid.update_grid self wk = (Ok tt, w')
    ∧ (∀ c, c ∈ tk.children g (widgets wk) (next_ref wk) → widgets w' !! c = None)
    ∧ (∀ c, c ∈ tk.children g (widgets w') (next_ref w') → next_ref wk ≤ c)
    ∧ length (tk.children g (widgets w') (next_ref w')) = 9
    ∧ (∀ i j : nat, i < 3 → j < 3 →
         ∃ t, tiles_shown g w' !! (i * 3 + j) = Some (Some t)
              ∧ row t = Z.of_nat i ∧ column t = Z.of_nat j
              ∧ title t = "Video " +:+ Python.str (Z.of_nat i * 3 + Z.of_nat j + 1)).
Proof.
  intros Hready.
  destruct (rebuilds_ready _ _ k _ Hready) as (wk & Hrunk & Hk).
  destruct (refilled_spec _ _ _ Hk) as (_ & Ht & Hgone & Hnew & _).
  exists wk, (refilled self g wk).
  split; [exact Hrunk|]. split; [now apply update_grid_run|].
  split; [exact Hgone|]. split; [exact Hnew|]. split.
  - transitivity (length (tiles_shown g (refilled self g wk))).
    + unfold tiles_shown, tiles. now rewrite length_fmap.
    + now rewrite Ht, tiles_for_length.
  - intros i j Hi Hj. rewrite Ht, tiles_for_cells_lookup by assumption.
    eexists. split; [reflexivity|]. now split_and!.
Qed.

(** C5. On a rendered grid panel [update_grid] succeeds and, for every
    row [i] and column [j] in 0..2, the tile it creates there has the title
    ["Video "] followed by [i * 3 + j + 1] in decimal, and a view-count label
    that shows an integer [v] with [100 <= v <= 1000000] (the value
    [randint] drew for that tile) followed by [" views"]. *)
Theorem update_grid_titles_and_views self g w :
  grid_ready self g w →
  ∃ w',
    call VideoGrid.update_grid self w = (Ok tt, w')
    ∧ length (tiles_shown g w') = 9
    ∧ ∀ i j : nat, i < 3 → j < 3 →
        ∃ v : Z,
          tiles_shown g w' !! (i * 3 + j) =
            Some (Some {| row := Z.of_nat i; column := Z.of_nat j;
                          title := "Video " +:+ Python.str (Z.of_nat (i * 3 + j + 1));
                          views := Python.str v +:+ " views" |})
          ∧ v = view_count (entropy w) (i * 3 + j + drawn w)
          ∧ (100 ≤ v ≤ 1000000)%Z.
Proof.
  intros Hready.
  destruct (refilled_spec _ _ _ Hready) as (_ & Ht & _).
  exists (refilled self g w). split; [now apply update_grid_run|].
  split; [now rewrite Ht, tiles_for_length|].
  intros i j Hi Hj. exists (view_count (entropy w) (i * 3 + j + drawn w)).
  split; [|split; [reflexivity|apply view_count_range]].
  rewrite Ht, tiles_for_cells_lookup by assumption. unfold tile.
  do 3 f_equal. do 2 f_equal. lia.
Qed.

(** ** The decorator *)

Section unlogged.

Context {A B : Type}.

Lemma unlogged_same (m : IO A) : (∀ w, events (m w).2 = events w) → unlogged m.
Proof. intros H w. exists []. now rewrite H, app_nil_r. Qed.

Lemma unlogged_ret (a : A) : unlogged (ret a).
Proof. now apply unlogged_same. Qed.

Lemma unlogged_raise (e : exn) : unlogged (@raise A e).
Proof. now apply unlogged_same. Qed.

Lemma unlogged_bind (m : IO A) (k : A → IO B) :
  unlogged m → (∀ a, unlogged (k a)) → unlogged (bind m k).
Proof.
  intros Hm Hk w. unfold bind. destruct (Hm w) as (r1 & He1 & Hf1).
  destruct (m w) as [[a|e] w1]; cbn in *.
  - destruct (Hk a w1) as (r2 & He2 & Hf2). exists (r1 ++ r2).
    rewrite He2, He1, app_assoc. split; [reflexivity|now apply Forall_app].
  - now exists r1.
Qed.

End unlogged.

Lemma unlogged_for {A} (l : list A) (body : A → IO unit) :
  (∀ x, unlogged (body x)) → unlogged (for_ l body).
Proof.
  intros Hb. induction l as [|x l IH]; cbn [for_];
    [intros w; exists []; now rewrite app_nil_r|].
  apply unlogged_bind; [apply Hb|now intros _].
Qed.


Lemma unlogged_called q self args : unlogged (called q self args).
Proof. intros w. exists [Called q self args]. split; [reflexivity|]. now repeat constructor. Qed.

Lemma unlogged_print line :
  starts_with "Action logged: " line = false → unlogged (print line).
Proof. intros H w. exists [Printed line]. split; [reflexivity|]. now repeat constructor. Qed.

Lemma unlogged_getattr self name : unlogged (getattr self name).
Proof. apply unlogged_same. intros w. unfold getattr. now destruct (_ ≫= _). Qed.

Lemma unlogged_setattr self name v : unlogged (setattr self name v).
Proof. apply unlogged_same. intros w. unfold setattr. now destruct (_ !! _). Qed.

Lemma unlogged_create c master o cmd : unlogged (tk.create c master o cmd).
Proof. apply unlogged_same. intros w. unfold tk.create. now destruct (tk.alive _ _). Qed.

Lemma unlogged_configure f r : unlogged (tk.configure f r).
Proof. apply unlogged_same. intros w. unfold tk.configure. now destruct (_ !! _). Qed.

Lemma unlogged_winfo_children r : unlogged (tk.winfo_children r).
Proof. apply unlogged_same. intros w. unfold tk.winfo_children. now destruct (tk.alive _ _). Qed.

Lemma unlogged_destroy r : unlogged (tk.destroy r).
Proof. now apply unlogged_same. Qed.

Lemma unlogged_Entry_get r : unlogged (tk.Entry_get r).
Proof. apply unlogged_same. intros w. unfold tk.Entry_get. now destruct (_ !! _). Qed.

Lemma unlogged_Text_get_all r : unlogged (tk.Text_get_all r).
Proof. apply unlogged_same. intros w. unfold tk.Text_get_all. now destruct (_ !! _). Qed.

Lemma unlogged_randint a b : unlogged (randint a b).
Proof. now apply unlogged_same. Qed.

(** Walks through a method body, one primitive at a time. *)
Ltac unlogged_tac :=
  repeat first
    [ apply unlogged_bind; [|intros ?]
    | apply unlogged_for; intros ?
    | apply unlogged_called
    | apply unlogged_getattr
    | apply unlogged_setattr
    | apply unlogged_create
    | apply unlogged_configure
    | apply unlogged_winfo_children
    | apply unlogged_destroy
    | apply unlogged_Entry_get
    | apply unlogged_Text_get_all
    | apply unlogged_randint
    | apply unlogged_ret
    | apply unlogged_print; reflexivity ].

Lemma unlogged_add_comment self user text : unlogged (Comments.add_comment self user text).
Proof.
  unfold Comments.add_comment, tk.Frame, tk.Label, tk.pack. unlogged_tac.
Qed.

Lemma unlogged_search_body self : unlogged (Header.search_body self).
Proof. unfold Header.search_body. unlogged_tac. Qed.

Lemma unlogged_update_grid_body self : unlogged (VideoGrid.update_grid_body self).
Proof.
  unfold VideoGrid.update_grid_body, tk.Frame, tk.Label, tk.pack, tk.grid,
    tk.pack_propagate.
  unlogged_tac.
Qed.

Lemma unlogged_submit_comment_body self : unlogged (Comments.submit_comment_body self).
Proof.
  unfold Comments.submit_comment_body, tk.Text_delete_all.
  do 3 (apply unlogged_bind; [unlogged_tac|intros ?]).
  cbn zeta. destruct (Python.truthy _); [|apply unlogged_ret].
  apply unlogged_bind; [apply unlogged_add_comment|intros _]. unlogged_tac.
Qed.

(** The wrapper is: write the line, then run the function. *)
Lemma log_action_call {A B} (func : function A B) args w :
  call (log_action func) args w =
  call func args (emit (Printed (log_line (__name__ func))) w).
Proof. reflexivity. Qed.

Lemma log_action_logs_once {A B} (func : function A B) args w :
  unlogged (call func args) → logs_once (__name__ func) (call (log_action func) args) w.
Proof.
  intros Hbody. unfold logs_once. rewrite log_action_call.
  destruct (Hbody (emit (Printed (log_line (__name__ func))) w)) as (rest & He & Hf).
  exists rest. split; [|exact Hf]. rewrite He. cbn [events emit].
  now rewrite <- app_assoc.
Qed.

(** C7. Calling a decorated function is: write the line
    ["Action logged: <name> called"], then run the function in the state so
    reached (whatever the function then does, including raising).  For the
    three decorated actions [search], [update_grid] and [submit_comment], in
    every state, the events of one invocation start with that line and hold
    no other line with the prefix ["Action logged: "]. *)
Theorem log_action_writes_one_line_first :
  (∀ (A B : Type) (func : function A B) (args : A) (w : world),
     call (log_action func) args w =
       call func args (emit (Printed ("Action logged: " +:+ __name__ func +:+ " called")) w)
     ∧ __name__ (log_action func) = __name__ func)
  ∧ (∀ self w, logs_once "search" (call Header.search self) w)
  ∧ (∀ self w, logs_once "update_grid" (call VideoGrid.update_grid self) w)
  ∧ (∀ self w, logs_once "submit_comment" (call Comments.submit_comment self) w)
  ∧ (∀ name, is_log_line (Printed (log_line name)) = true).
Proof.
  split_and!.
  - intros A B func args w. now split.
  - intros self w.
    apply (log_action_logs_once (Function "search" Header.search_body)).
    apply unlogged_search_body.
  - intros self w.
    apply (log_action_logs_once (Function "update_grid" VideoGrid.update_grid_body)).
    apply unlogged_update_grid_body.
  - intros self w.
    apply (log_action_logs_once (Function "submit_comment" Comments.submit_comment_body)).
    apply unlogged_submit_comment_body.
  - reflexivity.
Qed.

(** ** The header *)

Lemma stdout_app w l :
  stdout (World (heap w) (widgets w) (next_ref w) (events w ++ l) (entropy w) (drawn w)) =
  stdout w ++ omap (λ e, match e with Printed s => Some s | Called _ _ _ => None end) l.
Proof. unfold stdout. cbn [events]. apply omap_app. Qed.

(** C8. With the text [q] in the search box (any text, the empty string
    included), [search] returns [None] without raising, writes its log line
    and then exactly one report, ["Searching for: "] followed by [q], and
    leaves every object and every widget as it was. *)
Theorem search_reports_query_only self e w q :
  attr self "search_entry" (heap w) = Some e →
  input_of e w = Some q →
  ∃ w',
    call Header.search self w = (Ok tt, w')
    ∧ stdout w' = stdout w ++ ["Action logged: search called"; "Searching for: " +:+ q]
    ∧ heap w' = heap w
    ∧ widgets w' = widgets w
    ∧ next_ref w' = next_ref w
    ∧ entropy w' = entropy w
    ∧ drawn w' = drawn w.
Proof.
  intros Hattr (wd & Hwd & <-)%input_of_Some.
  exists (World (heap w) (widgets w) (next_ref w)
            (events w ++ [Printed "Action logged: search called";
                          Called "Header.search" self [];
                          Printed ("Searching for: " +:+ w_content wd)])
            (entropy w) (drawn w)).
  split; [|split; [now rewrite stdout_app|now split_and!]].
  unfold Header.search, log_action, call, Header.search_body. cbn [__name__].
  do 4 step. unfold print, emit. cbn. now rewrite <- !app_assoc.
Qed.

(** ** Start-up *)

(** C6. Started from scratch, with any random source, [YouTubeApp()]
    returns normally; it first instantiates the five panels (Header, Sidebar,
    VideoGrid, VideoPlayer, Comments, each bound to the root window), then
    [create_ui] calls the five [create_widget] methods, each exactly once, in
    the order Header, Sidebar, VideoGrid, VideoPlayer, Comments; the root
    window ends up with the five panel frames in that order. *)
Theorem startup_renders_each_panel_once_in_order (rnd : nat → Z) :
  let w := (YouTubeApp.__init__ (boot rnd)).2 in
  (YouTubeApp.__init__ (boot rnd)).1 = Ok 0
  ∧ calls w =
      [("YouTubeApp.__init__", 0, []);
       ("UIComponent.__init__", 1, []); ("UIComponent.__init__", 2, []);
       ("UIComponent.__init__", 3, []); ("UIComponent.__init__", 4, []);
       ("UIComponent.__init__", 5, []);
       ("YouTubeApp.create_ui", 0, []);
       ("Header.create_widget", 1, []);
       ("Sidebar.create_widget", 2, []);
       ("VideoGrid.create_widget", 3, []); ("VideoGrid.update_grid", 3, []);
       ("VideoPlayer.create_widget", 4, []);
       ("Comments.create_widget", 5, []);
       ("Comments.add_comment", 5, ["User1"; "Great video!"]);
       ("Comments.add_comment", 5, ["User2"; "Very informative, thanks for sharing!"])]
  ∧ renders w =
      [("Header.create_widget", 1); ("Sidebar.create_widget", 2);
       ("VideoGrid.create_widget", 3); ("VideoPlayer.create_widget", 4);
       ("Comments.create_widget", 5)]
  ∧ (class_of 1 w, class_of 2 w, class_of 3 w, class_of 4 w, class_of 5 w) =
      (Some "Header", Some "Sidebar", Some "VideoGrid", Some "VideoPlayer", Some "Comments")
  ∧ (attr 0 "header" (heap w), attr 0 "sidebar" (heap w), attr 0 "video_grid" (heap w),
     attr 0 "video_player" (heap w), attr 0 "comments" (heap w)) =
      (Some 1, Some 2, Some 3, Some 4, Some 5)
  ∧ tk.children 0 (widgets w) (next_ref w) = [6; 11; 16; 53; 58].
Proof. cbn zeta. split_and!; vm_compute; reflexivity. Qed.

(** ** Rendering the Comments panel again *)

(** A second panel built elsewhere leaves the comments of an older
    container as they were. *)
Lemma comment_list_comments_panel_old self root n (m : gmap ref widget) cl :
  wf_tree m n → root < cl → cl < n →
  comment_list (comments_panel self root n m) (11 + n) cl = comment_list m n cl.
Proof.
  intros Hwf Hroot Hcl.
  unfold comment_list, comments_panel, comment_block, comments_frame. cbn [Nat.add].
  rewrite !children_insert_bound. cbn [w_master]. decide_masters. rewrite !app_nil_r.
  apply list_fmap_ext. intros k f Hf. apply list_elem_of_lookup_2 in Hf.
  destruct (wf_tree_child _ _ _ _ Hwf Hf) as [Hcf Hfn].
  rewrite !comment_of_insert_bound; first reflexivity; cbn; try lia; intros [=]; lia.
Qed.

Lemma insertions_render_log self rnd :
  insertions self (World ∅ ∅ 0 (render_log self) rnd 0) =
  [["User1"; "Great video!"]; ["User2"; "Very informative, thanks for sharing!"]].
Proof.
  unfold insertions, calls, render_log. cbn.
  repeat case_decide; try reflexivity; exfalso; intuition congruence.
Qed.

Lemma insertions_events self w w' l :
  events w' = events w ++ l →
  insertions self w' = insertions self w ++ insertions self (World ∅ ∅ 0 l (entropy w) 0).
Proof. intros He. unfold insertions, calls. now rewrite He, !omap_app. Qed.

(** C10. [Comments.create_widget] is not idempotent.  Called twice on the
    same panel it succeeds both times; the second call builds a new input box
    and a new list container (the old ones stay in the window), and makes the
    two sample insertions again, so the panel has received four of them
    (User1, User2, User1, User2) and both containers show the pair.  By
    contrast two calls of [update_grid] leave nine tiles, not eighteen: the
    second destroys the tiles of the first. *)
Theorem comments_render_twice_duplicates_seeds self root w :
  wf_tree (widgets w) (next_ref w) →
  attr self "master" (heap w) = Some root →
  is_Some (widgets w !! root) →
  (∃ w1 w2 ce1 cl1 ce2 cl2,
     Comments.create_widget self w = (Ok tt, w1)
     ∧ Comments.create_widget self w1 = (Ok tt, w2)
     ∧ comments_ready self ce1 cl1 w1
     ∧ comments_ready self ce2 cl2 w2
     ∧ ce1 ≠ ce2 ∧ cl1 ≠ cl2
     ∧ is_Some (widgets w2 !! ce1) ∧ is_Some (widgets w2 !! cl1)
     ∧ insertions self w2 =
         insertions self w ++
         [["User1"; "Great video!"]; ["User2"; "Very informative, thanks for sharing!"];
          ["User1"; "Great video!"]; ["User2"; "Very informative, thanks for sharing!"]]
     ∧ comments_shown cl1 w2 = [Some seed1; Some seed2]
     ∧ comments_shown cl2 w2 = [Some seed1; Some seed2]
     ∧ w2 ≠ w1)
  ∧ (∀ gself g wg, grid_ready gself g wg →
     ∃ wa wb,
       call VideoGrid.update_grid gself wg = (Ok tt, wa)
       ∧ call VideoGrid.update_grid gself wa = (Ok tt, wb)
       ∧ length (tiles_shown g wa) = 9
       ∧ length (tiles_shown g wb) = 9
       ∧ ∀ c, c ∈ tk.children g (widgets wa) (next_ref wa) → widgets wb !! c = None).
Proof.
  intros Hwf Hattr Hroot. split.
  - pose proof (alive_lt _ _ _ Hwf Hroot) as Hlt.
    destruct (Comments_create_widget_ready _ _ _ Hwf Hattr Hroot)
      as (w1 & Hrun1 & Hready1 & Hview1 & Hev1 & Hn1 & Hattr1 & Hold1).
    pose proof Hready1 as (Hwf1 & _ & _ & Hace1 & Hacl1).
    assert (Hroot1 : is_Some (widgets w1 !! root)) by (now rewrite Hold1).
    destruct (Comments_create_widget_ready _ _ _ Hwf1 Hattr1 Hroot1)
      as (w2 & Hrun2 & Hready2 & Hview2 & Hev2 & Hn2 & Hattr2 & Hold2).
    exists w1, w2, (2 + next_ref w), (4 + next_ref w), (2 + next_ref w1), (4 + next_ref w1).
    split_and!; try assumption.
    + lia.
    + lia.
    + now rewrite Hold2 by lia.
    + now rewrite Hold2 by lia.
    + rewrite (insertions_events self w1 w2 _ Hev2), (insertions_events self w w1 _ Hev1).
      now rewrite !insertions_render_log, <- app_assoc.
    + pose proof (Comments_create_widget_run self root w1) as Hrun2'.
      apply attr_lookup in Hattr1 as (o1 & Ho1 & Hm1).
      rewrite (Hrun2' o1 Ho1 Hm1 Hroot1) in Hrun2. injection Hrun2 as <-.
      unfold comments_shown. cbn [widgets next_ref].
      rewrite comment_list_comments_panel_old by (assumption || lia).
      apply Hview1.
    + apply Hview2.
    + intros ->. lia.
  - intros gself g wg Hready.
    destruct (refilled_spec _ _ _ Hready) as (Hready' & Ht & _).
    destruct (refilled_spec _ _ _ Hready') as (_ & Ht' & Hgone & _).
    exists (refilled gself g wg), (refilled gself g (refilled gself g wg)).
    split; [now apply update_grid_run|]. split; [now apply update_grid_run|].
    split; [now rewrite Ht, tiles_for_length|].
    split; [now rewrite Ht', tiles_for_length|exact Hgone].
Qed.

(** ** Outside the preconditions

    The theorems on [update_grid] and [submit_comment] assume a rendered
    panel.  On a panel whose [create_widget] has not run, the attribute the
    method reads first does not exist yet and the call raises, after the log
    line was written.  The program never makes such a call: [update_grid] is
    only called at the end of [VideoGrid.create_widget], and [submit_comment]
    only by the button that [Comments.create_widget] creates. *)

(** [update_grid] before [VideoGrid.create_widget]: the log line is written,
    then reading [self.grid] raises; no widget is destroyed or created. *)
Lemma update_grid_unrendered self w :
  attr self "grid" (heap w) = None →
  call VideoGrid.update_grid self w =
    (Raise (AttributeError "grid"),
     World (heap w) (widgets w) (next_ref w) (events w ++ update_log self)
           (entropy w) (drawn w)).
Proof.
  intros Hattr.
  unfold VideoGrid.update_grid, log_action, call, VideoGrid.update_grid_body.
  cbn [__name__]. do 2 step.
  erewrite bind_raise by (apply getattr_raise; wsimpl; exact Hattr).
  unfold emit, update_log. cbn. now rewrite <- !app_assoc.
Qed.

(** [submit_comment] before [Comments.create_widget]: the log line is
    written, then reading [self.comment_entry] raises; nothing else changes. *)
Lemma submit_comment_unrendered self w :
  attr self "comment_entry" (heap w) = None →
  call Comments.submit_comment self w =
    (Raise (AttributeError "comment_entry"),
     World (heap w) (widgets w) (next_ref w) (events w ++ submit_log self)
           (entropy w) (drawn w)).
Proof.
  intros Hattr.
  unfold Comments.submit_comment, log_action, call, Comments.submit_comment_body.
  cbn [__name__]. do 2 step.
  erewrite bind_raise by (apply getattr_raise; wsimpl; exact Hattr).
  unfold emit, submit_log. cbn. now rewrite <- !app_assoc.
Qed.

(** The buttons are wired to the decorated methods: a click on the Search
    button (10) or on the Submit Comment button (61) of the started
    application is a call of [search] or of [submit_comment]. *)
Lemma buttons_wired :
  press 10 demo = call Header.search 1 demo
  ∧ press 61 demo = call Comments.submit_comment 5 demo.
Proof. split; vm_compute; reflexivity. Qed.

(** ** The theorems at work on the sample states *)

Ltac by_decide inst := apply (@bool_decide_unpack _ inst); vm_compute; exact I.
Ltac by_eval := vm_compute; first [reflexivity | discriminate | eexists; reflexivity].

Lemma update_grid_rebuilds_nine_tiles_witness :
  grid_ready 3 16 demo
  ∧ ∃ wk w',
      for_ (replicate 2 3) (call VideoGrid.update_grid) demo = (Ok tt, wk)
      ∧ call VideoGrid.update_grid 3 wk = (Ok tt, w')
      ∧ length (tk.children 16 (widgets w') (next_ref w')) = 9.
Proof.
  assert (H : grid_ready 3 16 demo) by by_decide (grid_ready_dec 3 16 demo).
  split; [exact H|].
  destruct (update_grid_rebuilds_nine_tiles 3 16 demo 2 H)
    as (wk & w' & Hk & Hrun & _ & _ & Hlen & _).
  exists wk, w'. split_and!; [exact Hk|exact Hrun|exact Hlen].
Defined.

Lemma submit_comment_appends_entry_witness :
  comments_ready 5 60 62 (demo_comment "Nice!")
  ∧ input_of 60 (demo_comment "Nice!") = Some "Nice!"
  ∧ Python.strip "Nice!" ≠ ""
  ∧ ∃ w',
      call Comments.submit_comment 5 (demo_comment "Nice!") = (Ok tt, w')
      ∧ comments_shown 62 w' =
          [Some seed1; Some seed2; Some {| author := "You"; text := "Nice!" |}]
      ∧ input_of 60 w' = Some "".
Proof.
  assert (H1 : comments_ready 5 60 62 (demo_comment "Nice!"))
    by by_decide (comments_ready_dec 5 60 62 (demo_comment "Nice!")).
  assert (H2 : input_of 60 (demo_comment "Nice!") = Some "Nice!") by by_eval.
  assert (H3 : Python.strip "Nice!" ≠ "") by by_eval.
  split; [exact H1|]. split; [exact H2|]. split; [exact H3|].
  destruct (submit_comment_appends_entry 5 60 62 (demo_comment "Nice!") "Nice!" H1 H2 H3)
    as (w' & Hrun & Hl & _ & _ & Hi).
  exists w'. split_and!; [exact Hrun| |exact Hi].
  rewrite Hl. vm_compute. reflexivity.
Defined.

Lemma submit_comment_blank_is_noop_witness :
  attr 5 "comment_entry" (heap (demo_comment "   ")) = Some 60
  ∧ input_of 60 (demo_comment "   ") = Some "   "
  ∧ Python.strip "   " = ""
  ∧ Python.strip "" = ""
  ∧ ∃ w',
      call Comments.submit_comment 5 (demo_comment "   ") = (Ok tt, w')
      ∧ comments_shown 62 w' = [Some seed1; Some seed2].
Proof.
  assert (H1 : attr 5 "comment_entry" (heap (demo_comment "   ")) = Some 60) by by_eval.
  assert (H2 : input_of 60 (demo_comment "   ") = Some "   ") by by_eval.
  assert (H3 : Python.strip "   " = "") by by_eval.
  split_and!; [exact H1|exact H2|exact H3|reflexivity|].
  destruct (submit_comment_blank_is_noop 5 60 (demo_comment "   ") "   " H1 H2 H3)
    as (w' & Hrun & _ & _ & Hl).
  exists w'. split; [exact Hrun|]. rewrite (proj1 (Hl 62)). vm_compute. reflexivity.
Defined.

Lemma submit_comment_blank_keeps_input_witness :
  attr 5 "comment_entry" (heap (demo_comment "   ")) = Some 60
  ∧ input_of 60 (demo_comment "   ") = Some "   "
  ∧ ∃ w',
      call Comments.submit_comment 5 (demo_comment "   ") = (Ok tt, w')
      ∧ input_of 60 w' = Some "   ".
Proof.
  assert (H1 : attr 5 "comment_entry" (heap (demo_comment "   ")) = Some 60) by by_eval.
  assert (H2 : input_of 60 (demo_comment "   ") = Some "   ") by by_eval.
  split_and!; [exact H1|exact H2|].
  destruct (submit_comment_blank_keeps_input 5 60 (demo_comment "   ") "   " H1 H2)
    as [Hblank _].
  destruct (Hblank ltac:(by_eval)) as (w' & Hrun & Hi & _).
  exists w'. split; [exact Hrun|exact Hi].
Defined.

Lemma comments_render_then_append_witness :
  wf_tree (widgets bare) (next_ref bare)
  ∧ attr 1 "master" (heap bare) = Some 0
  ∧ is_Some (widgets bare !! 0)
  ∧ ∃ w1 ce cl,
      Comments.create_widget 1 bare = (Ok tt, w1)
      ∧ attr 1 "comment_entry" (heap w1) = Some ce
      ∧ attr 1 "comments_list" (heap w1) = Some cl
      ∧ comments_shown cl w1 = [Some seed1; Some seed2]
      ∧ (∃ w2, Comments.add_comment 1 "Alice" "Hi" w1 = (Ok tt, w2)
               ∧ comments_shown cl w2 =
                   [Some seed1; Some seed2; Some {| author := "Alice"; text := "Hi" |}])
      ∧ ∃ wa,
          for_ [Typing " Nice! "; PressSubmit; PressSubmit; AddComment "Bob" "Yo";
                Typing "   "; PressSubmit] (perform 1 ce) w1 = (Ok tt, wa)
          ∧ comments_shown cl wa =
              [Some seed1; Some seed2; Some {| author := "You"; text := "Nice!" |};
               Some {| author := "Bob"; text := "Yo" |}]
          ∧ input_of ce wa = Some "   ".
Proof.
  assert (H1 : wf_tree (widgets bare) (next_ref bare))
    by by_decide (wf_tree_dec (widgets bare) (next_ref bare)).
  assert (H2 : attr 1 "master" (heap bare) = Some 0) by by_eval.
  assert (H3 : is_Some (widgets bare !! 0)) by by_eval.
  split; [exact H1|]. split; [exact H2|]. split; [exact H3|].
  destruct (comments_render_then_append 1 0 bare H1 H2 H3)
    as (w1 & ce & cl & Hrun & Hce & Hcl & _ & _ & Hl & Hadd & Hsess).
  destruct (Hsess [Typing " Nice! "; PressSubmit; PressSubmit; AddComment "Bob" "Yo";
                   Typing "   "; PressSubmit] [])
    as (wa & _ & Hra & _ & [Hla Hia] & _).
  exists w1, ce, cl. split; [exact Hrun|]. split; [exact Hce|]. split; [exact Hcl|].
  split; [exact Hl|]. split; [exact Hadd|].
  exists wa. split; [exact Hra|]. split; [exact Hla|exact Hia].
Defined.

Lemma update_grid_titles_and_views_witness :
  grid_ready 3 16 demo
  ∧ ∃ w' v,
      call VideoGrid.update_grid 3 demo = (Ok tt, w')
      ∧ tiles_shown 16 w' !! 5 =
          Some (Some {| row := 1; column := 2; title := "Video 6";
                        views := Python.str v +:+ " views" |})
      ∧ (100 ≤ v ≤ 1000000)%Z.
Proof.
  assert (H : grid_ready 3 16 demo) by by_decide (grid_ready_dec 3 16 demo).
  split; [exact H|].
  destruct (update_grid_titles_and_views 3 16 demo H) as (w' & Hrun & _ & Ht).
  destruct (Ht 1 2 ltac:(lia) ltac:(lia)) as (v & Hv & _ & Hrange).
  exists w', v. split; [exact Hrun|]. split; [exact Hv|exact Hrange].
Defined.

Lemma search_reports_query_only_witness :
  attr 1 "search_entry" (heap (demo_query "cats")) = Some 9
  ∧ input_of 9 (demo_query "cats") = Some "cats"
  ∧ ∃ w',
      call Header.search 1 (demo_query "cats") = (Ok tt, w')
      ∧ stdout w' =
          stdout (demo_query "cats") ++
          ["Action logged: search called"; "Searching for: cats"]
      ∧ heap w' = heap (demo_query "cats")
      ∧ widgets w' = widgets (demo_query "cats").
Proof.
  assert (H1 : attr 1 "search_entry" (heap (demo_query "cats")) = Some 9) by by_eval.
  assert (H2 : input_of 9 (demo_query "cats") = Some "cats") by by_eval.
  split_and!; [exact H1|exact H2|].
  destruct (search_reports_query_only 1 9 (demo_query "cats") "cats" H1 H2)
    as (w' & Hrun & Hout & Hh & Hw & _).
  exists w'. split_and!; [exact Hrun|exact Hout|exact Hh|exact Hw].
Defined.

Lemma comments_render_twice_duplicates_seeds_witness :
  wf_tree (widgets bare) (next_ref bare)
  ∧ attr 1 "master" (heap bare) = Some 0
  ∧ is_Some (widgets bare !! 0)
  ∧ ∃ w1 w2 cl1 cl2,
      Comments.create_widget 1 bare = (Ok tt, w1)
      ∧ Comments.create_widget 1 w1 = (Ok tt, w2)
      ∧ cl1 ≠ cl2
      ∧ insertions 1 w2 =
          [["User1"; "Great video!"]; ["User2"; "Very informative, thanks for sharing!"];
           ["User1"; "Great video!"]; ["User2"; "Very informative, thanks for sharing!"]]
      ∧ comments_shown cl1 w2 = [Some seed1; Some seed2]
      ∧ comments_shown cl2 w2 = [Some seed1; Some seed2].
Proof.
  assert (H1 : wf_tree (widgets bare) (next_ref bare))
    by by_decide (wf_tree_dec (widgets bare) (next_ref bare)).
  assert (H2 : attr 1 "master" (heap bare) = Some 0) by by_eval.
  assert (H3 : is_Some (widgets bare !! 0)) by by_eval.
  split; [exact H1|]. split; [exact H2|]. split; [exact H3|].
  destruct (comments_render_twice_duplicates_seeds 1 0 bare H1 H2 H3)
    as [(w1 & w2 & ce1 & cl1 & ce2 & cl2 & Hr1 & Hr2 & _ & _ & _ & Hne & _ & _ & Hins
         & Hs1 & Hs2 & _) _].
  exists w1, w2, cl1, cl2. split_and!; [exact Hr1|exact Hr2|exact Hne|exact Hins|exact Hs1|exact Hs2].
Defined.

(** * More of the program *)

(** ** Header *)

Lemma Header_create_widget_run self root w o :
  heap w !! self = Some o →
  o_dict o !! "master" = Some root →
  is_Some (widgets w !! root) →
  Header.create_widget self w =
    (Ok tt,
     World (<[self := Object (o_class o) (<["search_entry" := 3 + next_ref w]> (o_dict o))]>
              (heap w))
           (header_panel self root (next_ref w) (widgets w))
           (5 + next_ref w)
           (events w ++ [Called "Header.create_widget" self []])
           (entropy w) (drawn w)).
Proof.
  intros Ho Hm Hroot.
  assert (Hattr : attr self "master" (heap w) = Some root)
    by (apply attr_lookup; eauto).
  unfold Header.create_widget, tk.Frame, tk.Label, tk.Entry, tk.Button, tk.pack.
  do 13 step. erewrite configure_ok by lookup_solve. wsimpl.
  rewrite insert_insert_eq. reflexivity.
Qed.

Lemma search_run self e w wd :
  attr self "search_entry" (heap w) = Some e →
  widgets w !! e = Some wd →
  call Header.search self w =
    (Ok tt,
     World (heap w) (widgets w) (next_ref w) (events w ++ search_log self (w_content wd))
           (entropy w) (drawn w)).
Proof.
  intros Hattr Hwd.
  unfold Header.search, log_action, call, Header.search_body. cbn [__name__].
  do 4 step. unfold print, emit, search_log. cbn. now rewrite <- !app_assoc.
Qed.

Lemma press_search b self w :
  widgets w !! b ≫= w_command = Some (self, "search") →
  press b w = call Header.search self w.
Proof. intros H. unfold press. rewrite H. reflexivity. Qed.

Lemma press_submit b self w :
  widgets w !! b ≫= w_command = Some (self, "submit_comment") →
  press b w = call Comments.submit_comment self w.
Proof. intros H. unfold press. rewrite H. reflexivity. Qed.

Lemma press_unwired b w :
  widgets w !! b ≫= w_command = None → press b w = (Ok tt, w).
Proof. intros H. unfold press. now rewrite H. Qed.

(** Rendering the header on an instantiated panel builds the search box
    (empty) and a Search button wired to [self.search]; typing [q] and
    clicking the button then reports exactly [q].  Widgets that existed
    before and the other objects are untouched. *)
Theorem header_render_type_click self root w q :
  attr self "master" (heap w) = Some root →
  is_Some (widgets w !! root) →
  ∃ w1 e b w2 w3,
    Header.create_widget self w = (Ok tt, w1)
    ∧ attr self "search_entry" (heap w1) = Some e
    ∧ input_of e w1 = Some ""
    ∧ text_of (widgets w1) b = Some "Search"
    ∧ command_of (widgets w1) b = Some (Some (self, "search"))
    ∧ type_text e q w1 = (Ok tt, w2)
    ∧ press b w2 = (Ok tt, w3)
    ∧ stdout w3 = stdout w ++ ["Action logged: search called"; "Searching for: " +:+ q]
    ∧ widgets w3 = widgets w2
    ∧ (∀ r, r < next_ref w → widgets w3 !! r = widgets w !! r)
    ∧ (∀ o', o' ≠ self → heap w3 !! o' = heap w !! o').
Proof.
  intros Hattr Hroot. apply attr_lookup in Hattr as (o & Ho & Hm).
  pose proof (Header_create_widget_run _ _ _ _ Ho Hm Hroot) as Hrun1.
  set (w1 := World _ _ _ _ _ _) in Hrun1.
  assert (He : widgets w1 !! (3 + next_ref w) =
               Some (Widget Entry (Some (2 + next_ref w)) [("width", "40")] None
                       (Pack [("side", tk.LEFT); ("ipady", "5")]) true "")).
  { unfold w1, header_panel. cbn [widgets].
    now rewrite lookup_insert_ne, lookup_insert_eq by lia. }
  pose proof (configure_ok (tk.with_content q) _ _ _ He) as Hrun2.
  set (w2 := World _ _ _ _ _ _) in Hrun2.
  assert (Hattr2 : attr self "search_entry" (heap w2) = Some (3 + next_ref w)).
  { unfold w2, w1, attr. cbn [heap]. rewrite lookup_insert_eq. cbn.
    now rewrite lookup_insert_eq. }
  assert (He2 : widgets w2 !! (3 + next_ref w) =
                Some (tk.with_content q
                        (Widget Entry (Some (2 + next_ref w)) [("width", "40")] None
                           (Pack [("side", tk.LEFT); ("ipady", "5")]) true "")))
    by (unfold w2; cbn [widgets]; now rewrite lookup_insert_eq).
  assert (Hb : widgets w2 !! (4 + next_ref w) ≫= w_command = Some (self, "search")).
  { unfold w2, w1, header_panel. cbn [widgets].
    now rewrite lookup_insert_ne, lookup_insert_eq by lia. }
  pose proof (search_run _ _ _ _ Hattr2 He2) as Hrun3.
  exists w1, (3 + next_ref w), (4 + next_ref w), w2. eexists.
  split; [exact Hrun1|]. split; [exact Hattr2|].
  split; [unfold input_of; now rewrite He|].
  split; [unfold text_of, w1, header_panel; cbn [widgets];
          now rewrite lookup_insert_eq|].
  split; [unfold command_of, w1, header_panel; cbn [widgets];
          now rewrite lookup_insert_eq|].
  split; [exact Hrun2|].
  split; [rewrite (press_search _ _ _ Hb); exact Hrun3|].
  split; [rewrite stdout_app; unfold w2, w1, stdout; cbn [events];
          rewrite omap_app, app_nil_r; reflexivity|].
  split; [reflexivity|]. split.
  - intros r Hr. unfold w2, w1, header_panel. cbn [widgets].
    now rewrite !lookup_insert_ne by lia.
  - intros o' Hne. unfold w2, w1. cbn [heap]. now rewrite lookup_insert_ne by congruence.
Qed.

(** ** Sidebar and video player *)

Lemma bind_bind {A B C} (m : IO A) (k : A → IO B) (k' : B → IO C) w :
  bind (bind m k) k' w = bind m (λ a, bind (k a) k') w.
Proof. unfold bind. now destruct (m w) as [[a|e] w1]. Qed.

Lemma Sidebar_create_widget_run self root w :
  attr self "master" (heap w) = Some root →
  is_Some (widgets w !! root) →
  Sidebar.create_widget self w =
    (Ok tt,
     World (heap w) (sidebar_panel root (next_ref w) (widgets w)) (5 + next_ref w)
           (events w ++ [Called "Sidebar.create_widget" self []])
           (entropy w) (drawn w)).
Proof.
  intros Hattr Hroot.
  unfold Sidebar.create_widget, tk.Frame, tk.Button, tk.pack.
  do 4 step. cbn zeta. cbn [for_].
  do 4 (rewrite bind_bind; do 2 step). reflexivity.
Qed.

Lemma VideoPlayer_create_widget_run self root w :
  attr self "master" (heap w) = Some root →
  is_Some (widgets w !! root) →
  VideoPlayer.create_widget self w =
    (Ok tt,
     World (heap w) (player_panel root (next_ref w) (widgets w)) (5 + next_ref w)
           (events w ++ [Called "VideoPlayer.create_widget" self []])
           (entropy w) (drawn w)).
Proof.
  intros Hattr Hroot.
  unfold VideoPlayer.create_widget, tk.Frame, tk.Label, tk.Button, tk.pack.
  do 11 step. erewrite configure_ok by lookup_solve. wsimpl.
  rewrite insert_insert_eq. reflexivity.
Qed.

(** Rendering the sidebar adds one bar as the last child of the master;
    the bar holds exactly the four buttons Home, Trending, Subscriptions,
    Library, in that order; none of them is wired, so a click on any of them
    leaves the whole state as it is.  Objects and older widgets are
    untouched. *)
Theorem sidebar_four_inert_buttons self root w :
  wf_tree (widgets w) (next_ref w) →
  attr self "master" (heap w) = Some root →
  is_Some (widgets w !! root) →
  ∃ w1 f,
    Sidebar.create_widget self w = (Ok tt, w1)
    ∧ tk.children root (widgets w1) (next_ref w1) =
        tk.children root (widgets w) (next_ref w) ++ [f]
    ∧ labels_under (widgets w1) (next_ref w1) f =
        [Some "Home"; Some "Trending"; Some "Subscriptions"; Some "Library"]
    ∧ (∀ b, b ∈ tk.children f (widgets w1) (next_ref w1) → press b w1 = (Ok tt, w1))
    ∧ heap w1 = heap w
    ∧ (∀ r, r < next_ref w → widgets w1 !! r = widgets w !! r).
Proof.
  intros Hwf Hattr Hroot. pose proof (alive_lt _ _ _ Hwf Hroot) as Hlt.
  pose proof (Sidebar_create_widget_run _ _ _ Hattr Hroot) as Hrun.
  set (w1 := World _ _ _ _ _ _) in Hrun.
  assert (Hch : tk.children (next_ref w) (widgets w1) (next_ref w1) =
                [1 + next_ref w; 2 + next_ref w; 3 + next_ref w; 4 + next_ref w]).
  { unfold w1, sidebar_panel, sidebar_button. cbn [widgets next_ref Nat.add].
    rewrite !children_insert_bound. cbn [w_master]. decide_masters.
    now rewrite (children_fresh _ _ _ Hwf) by lia. }
  exists w1, (next_ref w). split; [exact Hrun|]. split_and!.
  - unfold w1, sidebar_panel, sidebar_button. cbn [widgets next_ref Nat.add].
    rewrite !children_insert_bound. cbn [w_master]. decide_masters.
    now rewrite !app_nil_r.
  - unfold labels_under. rewrite Hch.
    unfold w1, sidebar_panel, sidebar_button, text_of. cbn [widgets fmap list_fmap].
    repeat (rewrite ?lookup_insert_eq; rewrite ?lookup_insert_ne by lia). reflexivity.
  - intros b Hb. rewrite Hch in Hb. apply press_unwired.
    unfold w1, sidebar_panel, sidebar_button. cbn [widgets].
    repeat (apply elem_of_cons in Hb as [->|Hb]);
      [..|now apply elem_of_nil in Hb];
      repeat (rewrite ?lookup_insert_eq; rewrite ?lookup_insert_ne by lia); reflexivity.
  - reflexivity.
  - intros r Hr. unfold w1, sidebar_panel, sidebar_button. cbn [widgets].
    now rewrite !lookup_insert_ne by lia.
Qed.

(** Rendering the video player adds one frame as the last child of the
    master, holding the placeholder label and a control bar with exactly the
    buttons Play and Pause; neither is wired, so a click leaves the whole
    state as it is.  Objects and older widgets are untouched. *)
Theorem player_controls_inert self root w :
  wf_tree (widgets w) (next_ref w) →
  attr self "master" (heap w) = Some root →
  is_Some (widgets w !! root) →
  ∃ w1 f c,
    VideoPlayer.create_widget self w = (Ok tt, w1)
    ∧ tk.children root (widgets w1) (next_ref w1) =
        tk.children root (widgets w) (next_ref w) ++ [f]
    ∧ labels_under (widgets w1) (next_ref w1) f = [Some "Video Player"; None]
    ∧ tk.children f (widgets w1) (next_ref w1) !! 1 = Some c
    ∧ labels_under (widgets w1) (next_ref w1) c = [Some "Play"; Some "Pause"]
    ∧ (∀ b, b ∈ tk.children c (widgets w1) (next_ref w1) → press b w1 = (Ok tt, w1))
    ∧ heap w1 = heap w
    ∧ (∀ r, r < next_ref w → widgets w1 !! r = widgets w !! r).
Proof.
  intros Hwf Hattr Hroot. pose proof (alive_lt _ _ _ Hwf Hroot) as Hlt.
  pose proof (VideoPlayer_create_widget_run _ _ _ Hattr Hroot) as Hrun.
  set (w1 := World _ _ _ _ _ _) in Hrun.
  assert (Hchf : tk.children (next_ref w) (widgets w1) (next_ref w1) =
                 [1 + next_ref w; 2 + next_ref w]).
  { unfold w1, player_panel. cbn [widgets next_ref Nat.add].
    rewrite !children_insert_bound. cbn [w_master]. decide_masters.
    now rewrite (children_fresh _ _ _ Hwf) by lia. }
  assert (Hchc : tk.children (2 + next_ref w) (widgets w1) (next_ref w1) =
                 [3 + next_ref w; 4 + next_ref w]).
  { unfold w1, player_panel. cbn [widgets next_ref Nat.add].
    rewrite !children_insert_bound. cbn [w_master]. decide_masters.
    now rewrite (children_fresh _ _ _ Hwf) by lia. }
  exists w1, (next_ref w), (2 + next_ref w). split; [exact Hrun|]. split_and!.
  - unfold w1, player_panel. cbn [widgets next_ref Nat.add].
    rewrite !children_insert_bound. cbn [w_master]. decide_masters.
    now rewrite !app_nil_r.
  - unfold labels_under. rewrite Hchf.
    unfold w1, player_panel, text_of. cbn [widgets fmap list_fmap].
    repeat (rewrite ?lookup_insert_eq; rewrite ?lookup_insert_ne by lia). reflexivity.
  - now rewrite Hchf.
  - unfold labels_under. rewrite Hchc.
    unfold w1, player_panel, text_of. cbn [widgets fmap list_fmap].
    repeat (rewrite ?lookup_insert_eq; rewrite ?lookup_insert_ne by lia). reflexivity.
  - intros b Hb. rewrite Hchc in Hb. apply press_unwired.
    unfold w1, player_panel. cbn [widgets].
    repeat (apply elem_of_cons in Hb as [->|Hb]);
      [..|now apply elem_of_nil in Hb];
      repeat (rewrite ?lookup_insert_eq; rewrite ?lookup_insert_ne by lia); reflexivity.
  - reflexivity.
  - intros r Hr. unfold w1, player_panel. cbn [widgets].
    now rewrite !lookup_insert_ne by lia.
Qed.

(** ** More on the video grid *)

Lemma under_subseteq fuel (m m' : gmap ref widget) c :
  m' ⊆ m → ∀ i, tk.under fuel m' c i = true → tk.under fuel m c i = true.
Proof.
  intros Hsub. induction fuel as [|fuel IH]; intros i; cbn; [tauto|].
  destruct (bool_decide (i = c)); [reflexivity|]. cbn.
  destruct (m' !! i) as [wd|] eqn:Hl; [|discriminate].
  rewrite (lookup_weaken _ _ _ _ Hl Hsub). cbn.
  destruct (w_master wd); [apply IH|discriminate].
Qed.

(** [destroy] on each of [cs] spares every widget that is not below one of
    them. *)
Lemma cleared_spares n cs (m0 : gmap ref widget) r :
  Forall (λ c, tk.under n m0 c r = false) cs →
  ∀ m, m ⊆ m0 → cleared n cs m !! r = m !! r.
Proof.
  induction 1 as [|c cs Hc _ IH]; intros m Hsub; [reflexivity|].
  change (cleared n (c :: cs) m) with (cleared n cs (tk.without n c m)).
  rewrite IH by (etransitivity; [apply without_subseteq|exact Hsub]).
  destruct (m !! r) as [wd|] eqn:Hl.
  - apply map_lookup_filter_Some. split; [exact Hl|]. cbn.
    destruct (tk.under n m c r) eqn:Hu; [|reflexivity].
    now rewrite (under_subseteq _ _ _ _ Hsub _ Hu) in Hc.
  - apply map_lookup_filter_None. now left.
Qed.

Lemma children_tile_block (m : gmap ref widget) n g i j v p :
  p ≠ g → p < n →
  tk.children p (tile_block g n i j v m) (4 + n) = tk.children p m n.
Proof.
  intros Hne Hp. unfold tile_block. cbn [Nat.add].
  rewrite !children_insert_bound. cbn [w_master].
  rewrite !decide_False by (intros [=]; lia || congruence).
  now rewrite !app_nil_r.
Qed.

Lemma children_fill g cs p : ∀ w,
  p ≠ g → p < next_ref w →
  tk.children p (widgets (fill g cs w)) (next_ref (fill g cs w)) =
  tk.children p (widgets w) (next_ref w).
Proof.
  induction cs as [|[i j] cs IH]; intros w Hne Hp; [reflexivity|].
  rewrite fill_cons, IH by (cbn; lia || assumption). cbn [fst snd].
  now apply children_tile_block.
Qed.

(** [update_grid] changes nothing outside the grid: a live widget that is
    not below one of the grid's tiles keeps its master and all its data, and
    no object changes. *)
Theorem update_grid_spares_the_rest self g w r :
  grid_ready self g w →
  is_Some (widgets w !! r) →
  Forall (λ c, tk.under (next_ref w) (widgets w) c r = false)
         (tk.children g (widgets w) (next_ref w)) →
  ∃ w',
    call VideoGrid.update_grid self w = (Ok tt, w')
    ∧ widgets w' !! r = widgets w !! r
    ∧ heap w' = heap w.
Proof.
  intros Hready Hr Hfree. pose proof Hready as (Hwf & Hattr & Halive).
  exists (refilled self g w). split; [now apply update_grid_run|].
  pose proof (alive_lt _ _ _ Hwf Halive) as Hlt.
  pose proof (alive_lt _ _ _ Hwf Hr) as Hrlt.
  unfold refilled.
  set (w1 := World (heap w)
               (cleared (next_ref w) (tk.children g (widgets w) (next_ref w)) (widgets w))
               (next_ref w) (events w ++ update_log self) (entropy w) (drawn w)).
  assert (Hwf1 : wf_tree (widgets w1) (next_ref w1)) by (now apply wf_cleared).
  destruct (fill_spec g cells w1 Hwf1 Hlt) as (_ & _ & Hl & _ & Hh & _).
  split; [|exact Hh]. rewrite Hl by exact Hrlt. unfold w1. cbn [widgets].
  now apply (cleared_spares _ _ (widgets w)).
Qed.



(** Rendering the grid panel on an instantiated panel creates the grid
    container as the last child of the master, fills it with the nine tiles
    (through one logged call of [update_grid], the only line printed) and
    leaves the panel ready for further rebuilds; older widgets and the other
    objects are untouched. *)
Theorem grid_render_fills_grid self root w :
  wf_tree (widgets w) (next_ref w) →
  attr self "master" (heap w) = Some root →
  is_Some (widgets w !! root) →
  ∃ w1 g,
    VideoGrid.create_widget self w = (Ok tt, w1)
    ∧ grid_ready self g w1
    ∧ tk.children root (widgets w1) (next_ref w1) =
        tk.children root (widgets w) (next_ref w) ++ [g]
    ∧ tiles_shown g w1 = tiles_for (entropy w) (drawn w) cells
    ∧ stdout w1 = stdout w ++ ["Action logged: update_grid called"]
    ∧ (∀ r, r < next_ref w → widgets w1 !! r = widgets w !! r)
    ∧ (∀ o', o' ≠ self → heap w1 !! o' = heap w !! o').
Proof.
  intros Hwf Hattr Hroot. pose proof (alive_lt _ _ _ Hwf Hroot) as Hlt.
  apply attr_lookup in Hattr as (o & Ho & Hm).
  assert (Hattr : attr self "master" (heap w) = Some root)
    by (apply attr_lookup; eauto).
  set (w0 := World (<[self := Object (o_class o) (<["grid" := next_ref w]> (o_dict o))]>
                      (heap w))
                   (<[next_ref w := Widget Frame (Some root) [] None
                        (Pack [("expand", "1"); ("fill", tk.BOTH)]) true ""]> (widgets w))
                   (S (next_ref w))
                   (events w ++ [Called "VideoGrid.create_widget" self []])
                   (entropy w) (drawn w)).
  assert (Hready0 : grid_ready self (next_ref w) w0).
  { unfold grid_ready, w0. cbn [widgets next_ref heap]. split_and!.
    - apply wf_tree_insert_bound; [exact Hwf|exact Hlt].
    - unfold attr. rewrite lookup_insert_eq. cbn. now rewrite lookup_insert_eq.
    - rewrite lookup_insert_eq. eauto. }
  assert (Hrun : VideoGrid.create_widget self w = (Ok tt, refilled self (next_ref w) w0)).
  { unfold VideoGrid.create_widget, tk.Frame, tk.pack. do 6 step.
    now rewrite <- (update_grid_run _ _ _ Hready0). }
  destruct (refilled_spec _ _ _ Hready0) as (Hready1 & Ht & _ & _ & _ & Hh & Hev & _).
  assert (Hch0 : tk.children (next_ref w) (widgets w0) (next_ref w0) = []).
  { unfold w0. cbn [widgets next_ref]. rewrite children_insert_bound. cbn [w_master].
    rewrite decide_False by (intros [=]; lia).
    now rewrite (children_fresh _ _ _ Hwf), app_nil_r by lia. }
  exists (refilled self (next_ref w) w0), (next_ref w).
  split; [exact Hrun|]. split; [exact Hready1|]. split_and!.
  - unfold refilled. rewrite children_fill by (cbn; lia). cbn [widgets next_ref].
    rewrite Hch0. cbn [cleared foldl]. unfold w0. cbn [widgets next_ref].
    rewrite children_insert_bound. cbn [w_master]. now rewrite decide_True.
  - exact Ht.
  - unfold stdout. rewrite Hev. unfold w0. cbn [events].
    rewrite !omap_app. cbn. now rewrite app_nil_r.
  - intros r Hr. unfold refilled. rewrite Hch0. cbn [cleared foldl].
    pose proof (proj1 Hready0) as Hwf0.
    destruct (fill_spec (next_ref w) cells
                (World (heap w0) (widgets w0) (next_ref w0)
                   (events w0 ++ update_log self) (entropy w0) (drawn w0))
                Hwf0 ltac:(cbn; lia)) as (_ & _ & Hl & _).
    rewrite Hl by (cbn; lia). unfold w0. cbn [widgets].
    now rewrite lookup_insert_ne by lia.
  - intros o' Hne. rewrite Hh. unfold w0. cbn [heap].
    now rewrite lookup_insert_ne by congruence.
Qed.

(** ** More on the comments *)

Lemma lstrip_head s : starts_with_space (Python.lstrip s) = false.
Proof.
  induction s as [|c r IH]; [reflexivity|]. cbn [Python.lstrip].
  destruct (Python.isspace c) eqn:E; [exact IH|]. cbn. exact E.
Qed.

Lemma ends_with_space_cons c r :
  r ≠ "" → ends_with_space (String c r) = ends_with_space r.
Proof. intros Hr. destruct r; [congruence|reflexivity]. Qed.

Lemma rstrip_last s : ends_with_space (Python.rstrip s) = false.
Proof.
  induction s as [|c r IH]; [reflexivity|]. cbn [Python.rstrip].
  destruct (Python.rstrip r) as [|c' r'] eqn:E.
  - destruct (Python.isspace c) eqn:Ec; [reflexivity|]. cbn. exact Ec.
  - now rewrite ends_with_space_cons.
Qed.

Lemma lstrip_last s : ends_with_space s = false → ends_with_space (Python.lstrip s) = false.
Proof.
  induction s as [|c r IH]; [reflexivity|]. intros H. cbn [Python.lstrip].
  destruct (Python.isspace c) eqn:Ec; [|exact H].
  apply IH. destruct r as [|c' r']; [reflexivity|].
  now rewrite ends_with_space_cons in H.
Qed.

(** What [strip] returns has no whitespace at either end. *)
Lemma strip_trimmed s :
  starts_with_space (Python.strip s) = false ∧ ends_with_space (Python.strip s) = false.
Proof.
  unfold Python.strip. split; [apply lstrip_head|apply lstrip_last, rstrip_last].
Qed.

(** Whatever is typed in the input box, [submit_comment] on a rendered panel
    succeeds, and either changes nothing in the comment list or appends one
    entry by "You" whose text is not empty and has no whitespace at its start
    or at its end: a blank or padded comment is never shown. *)
Theorem submit_comment_never_shows_blank self ce cl w t :
  comments_ready self ce cl w →
  input_of ce w = Some t →
  ∃ w',
    call Comments.submit_comment self w = (Ok tt, w')
    ∧ (comments_shown cl w' = comments_shown cl w
       ∨ ∃ t', comments_shown cl w' =
                 comments_shown cl w ++ [Some {| author := "You"; text := t' |}]
               ∧ t' ≠ ""
               ∧ starts_with_space t' = false
               ∧ ends_with_space t' = false).
Proof.
  intros Hready Ht.
  destruct (submit_comment_ready _ _ _ _ _ Hready Ht) as (w' & Hrun & _ & Hv).
  exists w'. split; [exact Hrun|].
  destruct (Python.truthy (Python.strip t)) eqn:Etr; destruct Hv as [Hl _].
  - right. exists (Python.strip t). split; [exact Hl|].
    split; [now apply truthy_true|apply strip_trimmed].
  - now left.
Qed.

(** A second [submit_comment] right after a first one never adds anything:
    either the first call emptied the input box, or the input was blank
    already.  In both cases the second call leaves the widget tree as the
    first left it. *)
Theorem submit_comment_twice_adds_once self ce cl w t :
  comments_ready self ce cl w →
  input_of ce w = Some t →
  ∃ w1 w2,
    call Comments.submit_comment self w = (Ok tt, w1)
    ∧ call Comments.submit_comment self w1 = (Ok tt, w2)
    ∧ widgets w2 = widgets w1
    ∧ comments_shown cl w2 = comments_shown cl w1
    ∧ length (comments_shown cl w2) ≤ S (length (comments_shown cl w)).
Proof.
  intros Hready Ht.
  destruct (submit_comment_ready _ _ _ _ _ Hready Ht) as (w1 & Hrun1 & Hready1 & Hv).
  pose proof Hready1 as (_ & Hce1 & _).
  assert (∃ t1, input_of ce w1 = Some t1 ∧ Python.strip t1 = ""
                ∧ length (comments_shown cl w1) ≤ S (length (comments_shown cl w)))
    as (t1 & Ht1 & Hs1 & Hlen).
  { destruct (Python.truthy (Python.strip t)) eqn:Etr; destruct Hv as [Hl Hi].
    - exists "". split; [exact Hi|]. split; [reflexivity|].
      rewrite Hl, length_app. cbn. lia.
    - exists t. split; [exact Hi|]. split; [now apply truthy_false|].
      rewrite Hl. lia. }
  apply input_of_Some in Ht1 as (wd1 & Hwd1 & <-).
  pose proof (submit_comment_run_empty _ _ _ _ Hce1 Hwd1 Hs1) as Hrun2.
  eexists w1, _. split; [exact Hrun1|]. split; [exact Hrun2|].
  split; [reflexivity|]. split; [reflexivity|]. exact Hlen.
Qed.

(** ** Calls on a panel that was not rendered *)

(** [search] before [Header.create_widget]: the log line is written, then
    reading [self.search_entry] raises; nothing else changes. *)
Theorem search_unrendered_raises self w :
  attr self "search_entry" (heap w) = None →
  call Header.search self w =
    (Raise (AttributeError "search_entry"),
     World (heap w) (widgets w) (next_ref w)
           (events w ++ [Printed "Action logged: search called";
                         Called "Header.search" self []])
           (entropy w) (drawn w)).
Proof.
  intros Hattr.
  unfold Header.search, log_action, call, Header.search_body.
  cbn [__name__]. do 2 step.
  erewrite bind_raise by (apply getattr_raise; wsimpl; exact Hattr).
  unfold emit. cbn. now rewrite <- !app_assoc.
Qed.

(** [add_comment] before [Comments.create_widget]: reading
    [self.comments_list] raises and no widget is created. *)
Theorem add_comment_unrendered_raises self user text w :
  attr self "comments_list" (heap w) = None →
  Comments.add_comment self user text w =
    (Raise (AttributeError "comments_list"),
     World (heap w) (widgets w) (next_ref w)
           (events w ++ [Called "Comments.add_comment" self [user; text]])
           (entropy w) (drawn w)).
Proof.
  intros Hattr. unfold Comments.add_comment. step.
  erewrite bind_raise by (apply getattr_raise; wsimpl; exact Hattr).
  reflexivity.
Qed.

(** ** The event loop *)

Section session.

Implicit Types (m : gmap ref widget) (n : nat) (wd : widget).

Lemma tile_of_insert_same m n r wd wd' f :
  m !! r = Some wd →
  w_master wd' = w_master wd → w_options wd' = w_options wd →
  w_class wd' = w_class wd → w_geometry wd' = w_geometry wd →
  tile_of (<[r := wd']> m) n f = tile_of m n f.
Proof.
  intros Hr Hm Ho Hc Hg. unfold tile_of.
  rewrite (children_insert_same _ _ _ _ wd) by assumption.
  assert (Hf : <[r := wd']> m !! f ≫= (λ wd0, Some (w_class wd0, w_geometry wd0)) =
               m !! f ≫= (λ wd0, Some (w_class wd0, w_geometry wd0))).
  { destruct (decide (f = r)) as [->|Hne].
    - rewrite lookup_insert_eq, Hr. cbn. now rewrite Hc, Hg.
    - now rewrite lookup_insert_ne by congruence. }
  rewrite Hf. destruct (m !! f ≫= _) as [[[] []]|]; try reflexivity.
  destruct (tk.children f m n) as [|a [|t [|b [|]]]]; try reflexivity.
  now rewrite !(text_of_insert_same _ _ _ wd) by assumption.
Qed.

Lemma tiles_insert_same m n r wd wd' g :
  m !! r = Some wd →
  w_master wd' = w_master wd → w_options wd' = w_options wd →
  w_class wd' = w_class wd → w_geometry wd' = w_geometry wd →
  tiles (<[r := wd']> m) n g = tiles m n g.
Proof.
  intros Hr Hm Ho Hc Hg. unfold tiles.
  rewrite (children_insert_same _ _ _ _ wd) by assumption.
  apply list_fmap_ext. intros _ f _. now apply (tile_of_insert_same _ _ _ wd).
Qed.

Lemma children_comment_block m n cl user text p :
  p ≠ cl → p < n →
  tk.children p (comment_block cl n user text m) (S (S (S n))) = tk.children p m n.
Proof.
  intros Hne Hp. unfold comment_block.
  rewrite !children_insert_bound. cbn [w_master].
  rewrite !decide_False by (intros [=]; lia || congruence).
  now rewrite !app_nil_r.
Qed.

(** A new comment block leaves the tiles of the grid as they are. *)
Lemma tiles_comment_block m n cl user text g :
  wf_tree m n → g < n → cl ≠ g → cl ∉ tk.children g m n →
  tiles (comment_block cl n user text m) (S (S (S n))) g = tiles m n g.
Proof.
  intros Hwf Hg Hne Hnot. unfold tiles.
  rewrite children_comment_block by (congruence || lia).
  apply list_fmap_ext. intros k f Hf. apply list_elem_of_lookup_2 in Hf.
  destruct (wf_tree_child _ _ _ _ Hwf Hf) as [Hgf Hfn].
  assert (cl ≠ f) by (intros ->; contradiction).
  unfold comment_block.
  rewrite !tile_of_insert_bound; first reflexivity; cbn; try lia;
    intros [=]; lia || congruence.
Qed.

End session.

(** Typing in a live widget keeps the application up and changes neither
    the objects, nor the tiles, nor the comments, nor the output. *)
Lemma typing_keeps_ready h e c ce cl g w r s :
  app_ready h e c ce cl g w →
  is_Some (widgets w !! r) →
  ∃ w', type_text r s w = (Ok tt, w')
        ∧ app_ready h e c ce cl g w'
        ∧ heap w' = heap w
        ∧ events w' = events w
        ∧ tiles_shown g w' = tiles_shown g w
        ∧ comments_shown cl w' = comments_shown cl w.
Proof.
  intros ((Hwf & Hce & Hcl & Hace & Hacl) & He & Hae & Hag & Hwired & Hne & Hnot) [wd Hwd].
  eexists. split; [unfold type_text; apply (configure_ok _ _ _ wd Hwd)|].
  unfold app_ready, comments_ready, tiles_shown, comments_shown. wsimpl.
  rewrite (children_insert_same _ _ _ _ wd) by (assumption || reflexivity).
  rewrite (tiles_insert_same _ _ _ wd), (comment_list_insert_same _ _ _ wd)
    by (assumption || reflexivity).
  split_and!; try assumption; try reflexivity;
    try (apply is_Some_insert_same; eauto).
  - now apply (wf_tree_insert_same _ _ _ wd).
  - apply map_Forall_insert_2; [|exact Hwired].
    apply (map_Forall_lookup_1 _ _ _ _ Hwired Hwd).
Qed.

(** A click keeps the application up; it can only add output and, through
    the Submit button, one comment at the end of the list. *)
Lemma click_keeps_ready h e c ce cl g w b :
  app_ready h e c ce cl g w →
  ∃ w', press b w = (Ok tt, w')
        ∧ app_ready h e c ce cl g w'
        ∧ heap w' = heap w
        ∧ events w `prefix_of` events w'
        ∧ tiles_shown g w' = tiles_shown g w
        ∧ comments_shown cl w `prefix_of` comments_shown cl w'.
Proof.
  intros Hready.
  pose proof Hready as
    ((Hwf & Hce & Hcl & Hace & Hacl) & He & Hae & Hag & Hwired & Hne & Hnot).
  destruct (widgets w !! b ≫= w_command) as [cmd|] eqn:Hcmd.
  2:{ exists w. rewrite (press_unwired _ _ Hcmd). now split_and!. }
  destruct (widgets w !! b) as [wb|] eqn:Hb; [|discriminate]. cbn in Hcmd.
  destruct (map_Forall_lookup_1 _ _ _ _ Hwired Hb) as [Hw|[Hw|Hw]];
    rewrite Hcmd in Hw; [discriminate|injection Hw as ->|injection Hw as ->].
  - (* the Search button *)
    destruct Hae as [we Hwe].
    rewrite (press_search b h) by (rewrite Hb; exact Hcmd).
    eexists. split; [apply (search_run _ _ _ _ He Hwe)|].
    split; [exact Hready|]. split; [reflexivity|].
    split; [now apply prefix_app_r|]. split; reflexivity.
  - (* the Submit Comment button *)
    destruct Hace as [wc Hwc].
    rewrite (press_submit b c) by (rewrite Hb; exact Hcmd).
    destruct (decide (Python.strip (w_content wc) = "")) as [Hs|Hs].
    + eexists. split; [apply (submit_comment_run_empty _ _ _ _ Hce Hwc Hs)|].
      split; [exact Hready|]. split; [reflexivity|].
      split; [now apply prefix_app_r|]. split; reflexivity.
    + pose proof (alive_lt _ _ _ Hwf Hacl) as Hcllt.
      pose proof (alive_lt _ _ _ Hwf Hag) as Hglt.
      assert (Hcelt : ce < next_ref w) by (apply (alive_lt _ _ _ Hwf); eauto).
      assert (Hwc' : comment_block cl (next_ref w) "You" (Python.strip (w_content wc))
                       (widgets w) !! ce = Some wc)
        by (now rewrite lookup_comment_block_lt).
      eexists.
      split; [apply (submit_comment_run_nonempty c ce cl w wc); [|exact Hwc|exact Hs]|].
      { split_and!; eauto. }
      unfold app_ready, comments_ready, tiles_shown, comments_shown. wsimpl.
      rewrite (children_insert_same _ _ _ _ wc) by (assumption || reflexivity).
      rewrite (tiles_insert_same _ _ _ wc), (comment_list_insert_same _ _ _ wc)
        by (assumption || reflexivity).
      rewrite children_comment_block, tiles_comment_block, comment_list_block
        by (assumption || congruence).
      split_and!; try assumption; try reflexivity;
        try (apply is_Some_insert_same; [eauto|];
             rewrite lookup_comment_block_lt by (eapply alive_lt; eauto); eauto).
      * apply (wf_tree_insert_same _ _ _ wc); [|assumption|reflexivity].
        now apply wf_comment_block.
      * apply map_Forall_insert_2; [exact (map_Forall_lookup_1 _ _ _ _ Hwired Hwc)|].
        unfold comment_block.
        repeat (apply map_Forall_insert_2; [now left|]). exact Hwired.
      * now apply prefix_app_r.
      * now apply prefix_app_r.
Qed.

Lemma handle_keeps_ready h e c ce cl g w ev :
  app_ready h e c ce cl g w →
  ∃ w', handle e ce ev w = (Ok tt, w')
        ∧ app_ready h e c ce cl g w'
        ∧ heap w' = heap w
        ∧ events w `prefix_of` events w'
        ∧ tiles_shown g w' = tiles_shown g w
        ∧ comments_shown cl w `prefix_of` comments_shown cl w'.
Proof.
  intros Hready. destruct ev as [s|s|b]; cbn [handle].
  - destruct (typing_keeps_ready _ _ _ _ _ _ _ e s Hready) as (w' & ? & ? & ? & He & ? & Hc).
    { apply Hready. }
    exists w'. rewrite He, Hc. now split_and!.
  - destruct (typing_keeps_ready _ _ _ _ _ _ _ ce s Hready) as (w' & ? & ? & ? & He & ? & Hc).
    { apply Hready. }
    exists w'. rewrite He, Hc. now split_and!.
  - now apply click_keeps_ready.
Qed.

Lemma session_keeps_ready h e c ce cl g (evs : list user_event) : ∀ w,
  app_ready h e c ce cl g w →
  ∃ w', for_ evs (handle e ce) w = (Ok tt, w')
        ∧ app_ready h e c ce cl g w'
        ∧ heap w' = heap w
        ∧ events w `prefix_of` events w'
        ∧ tiles_shown g w' = tiles_shown g w
        ∧ comments_shown cl w `prefix_of` comments_shown cl w'.
Proof.
  induction evs as [|ev evs IH]; intros w Hready; [exists w; now split_and!|].
  destruct (handle_keeps_ready _ _ _ _ _ _ _ ev Hready)
    as (w1 & Hrun1 & Hr1 & Hh1 & He1 & Ht1 & Hc1).
  destruct (IH _ Hr1) as (w' & Hrun & Hr & Hh & He & Ht & Hc).
  exists w'. cbn [for_]. rewrite (bind_ok _ _ _ _ _ Hrun1).
  split_and!; [exact Hrun|exact Hr|congruence| |congruence|].
  - now transitivity (events w1).
  - now transitivity (comments_shown cl w1).
Qed.

(** Start-up leaves the application up, whatever the random source. *)
Lemma started_ready rnd : app_ready 1 9 5 60 62 16 (started rnd).
Proof.
  apply (@bool_decide_unpack _ (app_ready_dec 1 9 5 60 62 16 (started rnd))).
  vm_compute. exact I.
Qed.

(** From start-up on, whatever the random source and whatever the user
    does (typing in the search box or in the comment box, clicking on any
    widget, any number of times in any order), no turn of the event loop
    raises.  The objects never change, the grid keeps the tiles it was given
    at start-up, output is only ever added, and the comment list only ever
    grows at its end. *)
Theorem running_app_never_raises (rnd : nat → Z) (evs : list user_event) :
  ∃ w',
    for_ evs (handle 9 60) (started rnd) = (Ok tt, w')
    ∧ heap w' = heap (started rnd)
    ∧ events (started rnd) `prefix_of` events w'
    ∧ tiles_shown 16 w' = tiles_shown 16 (started rnd)
    ∧ comments_shown 62 (started rnd) `prefix_of` comments_shown 62 w'.
Proof.
  destruct (session_keeps_ready _ _ _ _ _ _ evs _ (started_ready rnd))
    as (w' & Hrun & _ & Hh & He & Ht & Hc).
  exists w'. split_and!; [exact Hrun|exact Hh|exact He|exact Ht|exact Hc].
Qed.


(** What is on screen after start-up, whatever the random source: one log
    line was printed (by the grid's first fill, which consumed nine random
    values), the grid shows the nine tiles Video 1 to Video 9 row by row, the
    comments are the two samples, both input boxes are empty, the root window
    holds the five panel frames and the sidebar its four buttons. *)
Theorem startup_screen (rnd : nat → Z) :
  stdout (started rnd) = ["Action logged: update_grid called"]
  ∧ drawn (started rnd) = 9
  ∧ tile_places 16 (started rnd) =
      [Some (0, 0, "Video 1"); Some (0, 1, "Video 2"); Some (0, 2, "Video 3");
       Some (1, 0, "Video 4"); Some (1, 1, "Video 5"); Some (1, 2, "Video 6");
       Some (2, 0, "Video 7"); Some (2, 1, "Video 8"); Some (2, 2, "Video 9")]%Z
  ∧ comments_shown 62 (started rnd) = [Some seed1; Some seed2]
  ∧ input_of 9 (started rnd) = Some ""
  ∧ input_of 60 (started rnd) = Some ""
  ∧ length (tk.children 0 (widgets (started rnd)) (next_ref (started rnd))) = 5
  ∧ labels_under (widgets (started rnd)) (next_ref (started rnd)) 11 =
      [Some "Home"; Some "Trending"; Some "Subscriptions"; Some "Library"].
Proof. split_and!; vm_compute; reflexivity. Qed.

(** ** The further theorems at work on the sample states *)

Lemma header_render_type_click_witness :
  attr 1 "master" (heap (bare_panel "Header")) = Some 0
  ∧ is_Some (widgets (bare_panel "Header") !! 0)
  ∧ ∃ w1 e b w2 w3,
      Header.create_widget 1 (bare_panel "Header") = (Ok tt, w1)
      ∧ text_of (widgets w1) b = Some "Search"
      ∧ type_text e "cats" w1 = (Ok tt, w2)
      ∧ press b w2 = (Ok tt, w3)
      ∧ stdout w3 = ["Action logged: search called"; "Searching for: cats"].
Proof.
  assert (H1 : attr 1 "master" (heap (bare_panel "Header")) = Some 0) by by_eval.
  assert (H2 : is_Some (widgets (bare_panel "Header") !! 0)) by by_eval.
  split; [exact H1|]. split; [exact H2|].
  destruct (header_render_type_click 1 0 (bare_panel "Header") "cats" H1 H2)
    as (w1 & e & b & w2 & w3 & Hr & _ & _ & Ht & _ & Hty & Hp & Hout & _).
  exists w1, e, b, w2, w3. split; [exact Hr|]. split; [exact Ht|].
  split; [exact Hty|]. split; [exact Hp|]. rewrite Hout. vm_compute. reflexivity.
Defined.

Lemma sidebar_four_inert_buttons_witness :
  wf_tree (widgets (bare_panel "Sidebar")) (next_ref (bare_panel "Sidebar"))
  ∧ attr 1 "master" (heap (bare_panel "Sidebar")) = Some 0
  ∧ is_Some (widgets (bare_panel "Sidebar") !! 0)
  ∧ ∃ w1 f,
      Sidebar.create_widget 1 (bare_panel "Sidebar") = (Ok tt, w1)
      ∧ labels_under (widgets w1) (next_ref w1) f =
          [Some "Home"; Some "Trending"; Some "Subscriptions"; Some "Library"]
      ∧ ∀ b, b ∈ tk.children f (widgets w1) (next_ref w1) → press b w1 = (Ok tt, w1).
Proof.
  assert (H1 : wf_tree (widgets (bare_panel "Sidebar")) (next_ref (bare_panel "Sidebar")))
    by by_decide (wf_tree_dec (widgets (bare_panel "Sidebar"))
                              (next_ref (bare_panel "Sidebar"))).
  assert (H2 : attr 1 "master" (heap (bare_panel "Sidebar")) = Some 0) by by_eval.
  assert (H3 : is_Some (widgets (bare_panel "Sidebar") !! 0)) by by_eval.
  split; [exact H1|]. split; [exact H2|]. split; [exact H3|].
  destruct (sidebar_four_inert_buttons 1 0 (bare_panel "Sidebar") H1 H2 H3)
    as (w1 & f & Hr & _ & Hl & Hp & _).
  exists w1, f. split; [exact Hr|]. split; [exact Hl|exact Hp].
Defined.

Lemma player_controls_inert_witness :
  wf_tree (widgets (bare_panel "VideoPlayer")) (next_ref (bare_panel "VideoPlayer"))
  ∧ attr 1 "master" (heap (bare_panel "VideoPlayer")) = Some 0
  ∧ is_Some (widgets (bare_panel "VideoPlayer") !! 0)
  ∧ ∃ w1 c,
      VideoPlayer.create_widget 1 (bare_panel "VideoPlayer") = (Ok tt, w1)
      ∧ labels_under (widgets w1) (next_ref w1) c = [Some "Play"; Some "Pause"]
      ∧ ∀ b, b ∈ tk.children c (widgets w1) (next_ref w1) → press b w1 = (Ok tt, w1).
Proof.
  assert (H1 : wf_tree (widgets (bare_panel "VideoPlayer"))
                       (next_ref (bare_panel "VideoPlayer")))
    by by_decide (wf_tree_dec (widgets (bare_panel "VideoPlayer"))
                              (next_ref (bare_panel "VideoPlayer"))).
  assert (H2 : attr 1 "master" (heap (bare_panel "VideoPlayer")) = Some 0) by by_eval.
  assert (H3 : is_Some (widgets (bare_panel "VideoPlayer") !! 0)) by by_eval.
  split; [exact H1|]. split; [exact H2|]. split; [exact H3|].
  destruct (player_controls_inert 1 0 (bare_panel "VideoPlayer") H1 H2 H3)
    as (w1 & f & c & Hr & _ & _ & _ & Hl & Hp & _).
  exists w1, c. split; [exact Hr|]. split; [exact Hl|exact Hp].
Defined.

Lemma grid_render_fills_grid_witness :
  wf_tree (widgets (bare_panel "VideoGrid")) (next_ref (bare_panel "VideoGrid"))
  ∧ attr 1 "master" (heap (bare_panel "VideoGrid")) = Some 0
  ∧ is_Some (widgets (bare_panel "VideoGrid") !! 0)
  ∧ ∃ w1 g,
      VideoGrid.create_widget 1 (bare_panel "VideoGrid") = (Ok tt, w1)
      ∧ grid_ready 1 g w1
      ∧ length (tiles_shown g w1) = 9
      ∧ stdout w1 = ["Action logged: update_grid called"].
Proof.
  assert (H1 : wf_tree (widgets (bare_panel "VideoGrid")) (next_ref (bare_panel "VideoGrid")))
    by by_decide (wf_tree_dec (widgets (bare_panel "VideoGrid"))
                              (next_ref (bare_panel "VideoGrid"))).
  assert (H2 : attr 1 "master" (heap (bare_panel "VideoGrid")) = Some 0) by by_eval.
  assert (H3 : is_Some (widgets (bare_panel "VideoGrid") !! 0)) by by_eval.
  split; [exact H1|]. split; [exact H2|]. split; [exact H3|].
  destruct (grid_render_fills_grid 1 0 (bare_panel "VideoGrid") H1 H2 H3)
    as (w1 & g & Hr & Hg & _ & Ht & Hout & _).
  exists w1, g. split; [exact Hr|]. split; [exact Hg|].
  split; [rewrite Ht; apply tiles_for_length|exact Hout].
Defined.

Lemma update_grid_spares_the_rest_witness :
  grid_ready 3 16 (demo_comment "draft")
  ∧ is_Some (widgets (demo_comment "draft") !! 60)
  ∧ Forall (λ c, tk.under (next_ref (demo_comment "draft"))
                   (widgets (demo_comment "draft")) c 60 = false)
           (tk.children 16 (widgets (demo_comment "draft")) (next_ref (demo_comment "draft")))
  ∧ ∃ w',
      call VideoGrid.update_grid 3 (demo_comment "draft") = (Ok tt, w')
      ∧ input_of 60 w' = Some "draft".
Proof.
  assert (H1 : grid_ready 3 16 (demo_comment "draft"))
    by by_decide (grid_ready_dec 3 16 (demo_comment "draft")).
  assert (H2 : is_Some (widgets (demo_comment "draft") !! 60)) by by_eval.
  assert (H3 : Forall (λ c, tk.under (next_ref (demo_comment "draft"))
                              (widgets (demo_comment "draft")) c 60 = false)
                 (tk.children 16 (widgets (demo_comment "draft"))
                    (next_ref (demo_comment "draft"))))
    by by_decide (Forall_dec (λ c, tk.under (next_ref (demo_comment "draft"))
                                     (widgets (demo_comment "draft")) c 60 = false)
                    (tk.children 16 (widgets (demo_comment "draft"))
                       (next_ref (demo_comment "draft")))).
  split; [exact H1|]. split; [exact H2|]. split; [exact H3|].
  destruct (update_grid_spares_the_rest 3 16 (demo_comment "draft") 60 H1 H2 H3)
    as (w' & Hr & Hl & _).
  exists w'. split; [exact Hr|]. unfold input_of. rewrite Hl. vm_compute. reflexivity.
Defined.


Lemma submit_comment_never_shows_blank_witness :
  comments_ready 5 60 62 (demo_comment "  hi  ")
  ∧ input_of 60 (demo_comment "  hi  ") = Some "  hi  "
  ∧ ∃ w',
      call Comments.submit_comment 5 (demo_comment "  hi  ") = (Ok tt, w')
      ∧ (comments_shown 62 w' = comments_shown 62 (demo_comment "  hi  ")
         ∨ ∃ t', comments_shown 62 w' =
                   comments_shown 62 (demo_comment "  hi  ")
                   ++ [Some {| author := "You"; text := t' |}]
                 ∧ t' ≠ "" ∧ starts_with_space t' = false ∧ ends_with_space t' = false).
Proof.
  assert (H1 : comments_ready 5 60 62 (demo_comment "  hi  "))
    by by_decide (comments_ready_dec 5 60 62 (demo_comment "  hi  ")).
  assert (H2 : input_of 60 (demo_comment "  hi  ") = Some "  hi  ") by by_eval.
  split; [exact H1|]. split; [exact H2|].
  exact (submit_comment_never_shows_blank 5 60 62 (demo_comment "  hi  ") "  hi  " H1 H2).
Defined.

Lemma submit_comment_twice_adds_once_witness :
  comments_ready 5 60 62 (demo_comment "Nice!")
  ∧ input_of 60 (demo_comment "Nice!") = Some "Nice!"
  ∧ ∃ w1 w2,
      call Comments.submit_comment 5 (demo_comment "Nice!") = (Ok tt, w1)
      ∧ call Comments.submit_comment 5 w1 = (Ok tt, w2)
      ∧ comments_shown 62 w2 = comments_shown 62 w1.
Proof.
  assert (H1 : comments_ready 5 60 62 (demo_comment "Nice!"))
    by by_decide (comments_ready_dec 5 60 62 (demo_comment "Nice!")).
  assert (H2 : input_of 60 (demo_comment "Nice!") = Some "Nice!") by by_eval.
  split; [exact H1|]. split; [exact H2|].
  destruct (submit_comment_twice_adds_once 5 60 62 (demo_comment "Nice!") "Nice!" H1 H2)
    as (w1 & w2 & Hr1 & Hr2 & _ & Hl & _).
  exists w1, w2. split; [exact Hr1|]. split; [exact Hr2|exact Hl].
Defined.

Lemma search_unrendered_raises_witness :
  attr 1 "search_entry" (heap (bare_panel "Header")) = None
  ∧ (call Header.search 1 (bare_panel "Header")).1 = Raise (AttributeError "search_entry").
Proof.
  assert (H : attr 1 "search_entry" (heap (bare_panel "Header")) = None) by by_eval.
  split; [exact H|]. now rewrite (search_unrendered_raises 1 (bare_panel "Header") H).
Defined.

Lemma add_comment_unrendered_raises_witness :
  attr 1 "comments_list" (heap bare) = None
  ∧ (Comments.add_comment 1 "Alice" "Hi" bare).1 = Raise (AttributeError "comments_list").
Proof.
  assert (H : attr 1 "comments_list" (heap bare) = None) by by_eval.
  split; [exact H|].
  now rewrite (add_comment_unrendered_raises 1 "Alice" "Hi" bare H).
Defined.

Lemma update_grid_unrendered_witness :
  attr 1 "grid" (heap (bare_panel "VideoGrid")) = None
  ∧ (call VideoGrid.update_grid 1 (bare_panel "VideoGrid")).1 = Raise (AttributeError "grid").
Proof.
  assert (H : attr 1 "grid" (heap (bare_panel "VideoGrid")) = None) by by_eval.
  split; [exact H|]. now rewrite (update_grid_unrendered 1 (bare_panel "VideoGrid") H).
Defined.

Lemma submit_comment_unrendered_witness :
  attr 1 "comment_entry" (heap bare) = None
  ∧ (call Comments.submit_comment 1 bare).1 = Raise (AttributeError "comment_entry").
Proof.
  assert (H : attr 1 "comment_entry" (heap bare) = None) by by_eval.
  split; [exact H|]. now rewrite (submit_comment_unrendered 1 bare H).
Defined.

(** ** Old tiles go with their labels *)

Lemma cleared_gone_child n cs (m0 : gmap ref widget) c r :
  c ∈ cs → m0 !! r ≫= w_master = Some c → 0 < n →
  ∀ m, m ⊆ m0 → cleared n cs m !! r = None.
Proof.
  intros Hc Hr Hn. induction cs as [|c' cs IH]; intros m Hsub;
    [now apply elem_of_nil in Hc|].
  change (cleared n (c' :: cs) m) with (cleared n cs (tk.without n c' m)).
  apply elem_of_cons in Hc as [<-|Hc].
  - apply (lookup_weaken_None _ (tk.without n c m)); [|apply cleared_subseteq].
    apply map_lookup_filter_None.
    destruct (m !! r) as [wd|] eqn:Hl; [right|now left].
    intros wd' [= <-]. cbn.
    rewrite (lookup_weaken _ _ _ _ Hl Hsub) in Hr. cbn in Hr.
    destruct n as [|n']; [lia|]. cbn. rewrite Hl. cbn. rewrite Hr.
    rewrite under_self. now destruct (bool_decide (r = c)).
  - apply IH; [exact Hc|]. etransitivity; [apply without_subseteq|exact Hsub].
Qed.

(** [update_grid] leaves nothing of the previous fill: the widgets that
    hung directly below an old tile (its thumbnail, title and view-count
    labels) are destroyed with it. *)
Theorem update_grid_destroys_tile_labels self g w c r :
  grid_ready self g w →
  c ∈ tk.children g (widgets w) (next_ref w) →
  r ∈ tk.children c (widgets w) (next_ref w) →
  ∃ w',
    call VideoGrid.update_grid self w = (Ok tt, w')
    ∧ widgets w' !! c = None
    ∧ widgets w' !! r = None.
Proof.
  intros Hready Hc Hr. pose proof Hready as (Hwf & Hattr & Halive).
  pose proof (alive_lt _ _ _ Hwf Halive) as Hlt.
  exists (refilled self g w). split; [now apply update_grid_run|].
  destruct (refilled_spec _ _ _ Hready) as (_ & _ & Hgone & _).
  split; [now apply Hgone|].
  apply elem_of_children in Hr as [Hrn Hrm].
  unfold refilled.
  set (w1 := World (heap w)
               (cleared (next_ref w) (tk.children g (widgets w) (next_ref w)) (widgets w))
               (next_ref w) (events w ++ update_log self) (entropy w) (drawn w)).
  assert (Hwf1 : wf_tree (widgets w1) (next_ref w1)) by (now apply wf_cleared).
  destruct (fill_spec g cells w1 Hwf1 Hlt) as (_ & _ & Hl & _).
  rewrite Hl by exact Hrn. unfold w1. cbn [widgets].
  apply (cleared_gone_child _ _ (widgets w) c); [exact Hc|exact Hrm|lia|reflexivity].
Qed.

Lemma update_grid_destroys_tile_labels_witness :
  grid_ready 3 16 demo
  ∧ 21 ∈ tk.children 16 (widgets demo) (next_ref demo)
  ∧ 23 ∈ tk.children 21 (widgets demo) (next_ref demo)
  ∧ text_of (widgets demo) 23 = Some "Video 2"
  ∧ ∃ w',
      call VideoGrid.update_grid 3 demo = (Ok tt, w')
      ∧ widgets w' !! 21 = None
      ∧ widgets w' !! 23 = None.
Proof.
  assert (H1 : grid_ready 3 16 demo) by by_decide (grid_ready_dec 3 16 demo).
  assert (H2 : 21 ∈ tk.children 16 (widgets demo) (next_ref demo))
    by by_decide (list_elem_of_dec 21 (tk.children 16 (widgets demo) (next_ref demo))).
  assert (H3 : 23 ∈ tk.children 21 (widgets demo) (next_ref demo))
    by by_decide (list_elem_of_dec 23 (tk.children 21 (widgets demo) (next_ref demo))).
  split; [exact H1|]. split; [exact H2|]. split; [exact H3|].
  split; [vm_compute; reflexivity|].
  exact (update_grid_destroys_tile_labels 3 16 demo 21 23 H1 H2 H3).
Defined.

(** ** Instantiating a panel *)

(** [cls(master)] for a panel class returns a new object of that class
    whose only attribute is [master]; it creates no widget, prints nothing
    and leaves the other objects alone.  (So every method that reads another
    attribute raises until [create_widget] has run.) *)
Theorem instantiate_records_only_master cls master w :
  ∃ w',
    instantiate cls master w = (Ok (next_ref w), w')
    ∧ class_of (next_ref w) w' = Some cls
    ∧ (∀ name, attr (next_ref w) name (heap w') =
                 if decide (name = "master") then Some master else None)
    ∧ widgets w' = widgets w
    ∧ stdout w' = stdout w
    ∧ (∀ o, o ≠ next_ref w → heap w' !! o = heap w !! o).
Proof.
  eexists. split.
  - unfold instantiate, UIComponent.__init__, new_object.
    erewrite bind_ok by reflexivity. rewrite bind_bind. do 2 step. reflexivity.
  - wsimpl. split_and!.
    + unfold class_of. cbn [heap]. now rewrite lookup_insert_eq.
    + intros name. unfold attr. rewrite lookup_insert_eq. cbn.
      destruct (decide (name = "master")) as [->|Hne].
      * now rewrite lookup_insert_eq.
      * now rewrite lookup_insert_ne, lookup_empty by congruence.
    + reflexivity.
    + unfold stdout. cbn [events]. rewrite omap_app. cbn. now rewrite app_nil_r.
    + intros o Hne. now rewrite lookup_insert_ne by congruence.
Qed.
